(** * daily_briefing: a shallow embedding of [daily_briefing.py]

    The script polls three external sources (a papers API, a model hub
    listing and four RSS feeds), drops the items whose id is already in a
    persisted history, posts a digest of the new ones to a webhook and
    extends the history.

    Python values that cross a dynamic boundary (decoded JSON, ids kept in
    the history set) are modelled by [json] and [hkey]; exceptions by the
    [result] type; the network, the clock, the history file and standard
    output by an explicit environment [env], a file state and an event
    log threaded through the monad [M]. *)

From Stdlib Require Import ZArith String Ascii List.
From stdpp Require Import base option list sets gmap strings pretty.

Local Open Scope string_scope.
Local Open Scope Z_scope.
Local Open Scope list_scope.

(** ** Exceptions and results *)

(** The classes of [Exception] the script can meet.  Every constructor is a
    subclass of [Exception], so both [except Exception] and a bare
    [except] catch all of them. *)
Inductive exn : Type :=
  | ConnectionError
  | JSONDecodeError
  | TypeError
  | KeyError
  | AttributeError
  | ValueError
  | OtherException (cls : string).

Inductive result (A : Type) : Type :=
  | Ok (a : A)
  | Raise (e : exn).
Arguments Ok {A} a.
Arguments Raise {A} e.

Definition rbind {A B : Type} (m : result A) (f : A -> result B) : result B :=
  match m with
  | Ok a => f a
  | Raise e => Raise e
  end.

Declare Scope result_scope.
Delimit Scope result_scope with result.
Notation "x <- m ;; k" := (rbind m (fun x => k))
  (at level 100, m at next level, right associativity) : result_scope.

Definition returns {A : Type} (r : result A) : Prop := exists a, r = Ok a.

(** ** Decoded JSON values (Python [None], [bool], [int], [str], [list],
    [dict]).  Numbers are integers; an object is its list of items, keys
    distinct, in insertion order. *)
#[local] Set Warnings "-register-all".
Inductive json : Type :=
  | JNull
  | JBool (b : bool)
  | JNum (n : Z)
  | JStr (s : string)
  | JArr (l : list json)
  | JObj (kvs : list (string * json)).

Fixpoint assoc (k : string) (kvs : list (string * json)) : option json :=
  match kvs with
  | [] => None
  | (k', v) :: rest => if String.eqb k k' then Some v else assoc k rest
  end.

(** [v[k]] for a string key [k]. *)
Definition py_getitem (v : json) (k : string) : result json :=
  match v with
  | JObj kvs => match assoc k kvs with Some x => Ok x | None => Raise KeyError end
  | _ => Raise TypeError
  end.

Fixpoint chars (s : string) : list string :=
  match s with
  | EmptyString => []
  | String c rest => String c EmptyString :: chars rest
  end.

(** [v[:n]].  A dict is not sliceable ([TypeError]; [KeyError] from
    CPython 3.12 on, caught alike by the only caller). *)
Definition py_slice_to (n : nat) (v : json) : result json :=
  match v with
  | JArr l => Ok (JArr (take n l))
  | JStr s => Ok (JStr (String.substring 0 n s))
  | _ => Raise TypeError
  end.

(** The elements a [for] loop or [set(...)] draws from [v]. *)
Definition py_iter (v : json) : result (list json) :=
  match v with
  | JArr l => Ok l
  | JStr s => Ok (JStr <$> chars s)
  | JObj kvs => Ok ((fun kv => JStr kv.1) <$> kvs)
  | _ => Raise TypeError
  end.

(** ** Hashable values, up to Python equality ([True == 1], [False == 0]). *)
Inductive hkey : Type :=
  | KNone
  | KNum (n : Z)
  | KStr (s : string).

Global Instance hkey_eq_dec : EqDecision hkey.
Proof. solve_decision. Defined.

Definition hkey_enc (k : hkey) : unit + (Z + string) :=
  match k with
  | KNone => inl tt
  | KNum n => inr (inl n)
  | KStr s => inr (inr s)
  end.

Definition hkey_dec (x : unit + (Z + string)) : hkey :=
  match x with
  | inl _ => KNone
  | inr (inl n) => KNum n
  | inr (inr s) => KStr s
  end.

Global Instance hkey_countable : Countable hkey.
Proof. apply (inj_countable' hkey_enc hkey_dec). by intros []. Defined.

(** [hash(v)]: lists and dicts are unhashable. *)
Definition py_hash (v : json) : result hkey :=
  match v with
  | JNull => Ok KNone
  | JBool b => Ok (KNum (if b then 1 else 0))
  | JNum n => Ok (KNum n)
  | JStr s => Ok (KStr s)
  | JArr _ | JObj _ => Raise TypeError
  end.

Definition json_of_key (k : hkey) : json :=
  match k with
  | KNone => JNull
  | KNum n => JNum n
  | KStr s => JStr s
  end.

(** A comprehension [[f(x) for x in l]] whose body may raise. *)
Fixpoint map_result {A B : Type} (f : A -> result B) (l : list A) : result (list B) :=
  match l with
  | [] => Ok []
  | x :: rest =>
      (y <- f x ;;
       ys <- map_result f rest ;;
       Ok (y :: ys))%result
  end.

(** [set(v)] *)
Definition py_set (v : json) : result (gset hkey) :=
  (l <- py_iter v ;;
   ks <- map_result py_hash l ;;
   Ok (list_to_set ks))%result.

(** ** Time
    An instant is a number of microseconds; [timedelta.days] is the floor
    of the difference over 24 hours (a [timedelta] is normalised so that
    its seconds and microseconds are non-negative). *)
Definition day_us : Z := 86400 * 1000000.

Definition timedelta_days (delta : Z) : Z := delta / day_us.

(** [now - x]: subtracting [None] from a datetime is a [TypeError]. *)
Definition datetime_sub (now : Z) (x : option Z) : result Z :=
  match x with
  | Some t => Ok (now - t)
  | None => Raise TypeError
  end.

(** Truth value of an attribute that holds [None] or a datetime. *)
Definition truthy {A : Type} (x : option A) : bool :=
  match x with
  | Some _ => true
  | None => false
  end.

(** ** Domain data *)

(** The [type] tag of an item. *)
Inductive ItemType : Type := Paper | Model | News.

Global Instance ItemType_eq_dec : EqDecision ItemType.
Proof. solve_decision. Defined.

(** An item is a dict with the keys [id], [title], [link], [type] and, for
    the items built by the models adapter only, [likes].  [id] and [title]
    hold whatever the source delivered. *)
Record Item : Type := mkItem {
  item_id : json;
  item_title : json;
  item_link : string;
  item_type : ItemType;
  item_likes : option Z
}.

(** The attributes of a [ModelInfo] that the script reads.  [lastModified]
    is [None] or a timezone-aware datetime (an instant). *)
Record ModelInfo : Type := mkModelInfo {
  modelId : string;
  lastModified : option Z;
  likes : Z
}.

(** What a lazily paginated listing delivers when iterated: elements, then
    the end, or an exception of the request behind the next page. *)
Inductive stream (A : Type) : Type :=
  | SNil
  | SCons (a : A) (rest : stream A)
  | SRaise (e : exn).
Arguments SNil {A}.
Arguments SCons {A} a rest.
Arguments SRaise {A} e.

Fixpoint stream_app {A : Type} (l : list A) (tail : stream A) : stream A :=
  match l with
  | [] => tail
  | a :: rest => SCons a (stream_app rest tail)
  end.

Definition stream_of_list {A : Type} (l : list A) : stream A := stream_app l SNil.

(** An HTTP response: its status and what [response.json()] does. *)
Record response : Type := mkResponse {
  status_code : Z;
  response_json : result json
}.

(** A feed entry; [None] is an attribute that is not there
    ([AttributeError] on access).  [published_parsed], when there, is
    [None] or a time tuple. *)
Record entry : Type := mkEntry {
  entry_link : option string;
  entry_title : option string;
  entry_published_parsed : option (option (list Z))
}.

Record feed : Type := mkFeed { entries : list entry }.

(** The embed posted to the webhook. *)
Record field : Type := mkField {
  field_name : string;
  field_value : string;
  field_inline : bool
}.

Record embed : Type := mkEmbed {
  embed_title : string;
  embed_description : string;
  embed_color : Z;
  embed_fields : list field;
  embed_footer : string
}.

Record payload : Type := mkPayload { embeds : list embed }.

(** The history file: text that is no JSON, or a JSON document. *)
Inductive content : Type :=
  | Garbage
  | Doc (j : json).

(** ** The environment of one run *)
Record env : Type := mkEnv {
  (** [os.environ.get("DISCORD_WEBHOOK_URL")] *)
  WEBHOOK_URL : option string;
  (** [datetime.now()] as [%Y-%m-%d], as [%b %d], as a naive and as an
      aware instant *)
  today_ymd : string;
  today_b_d : string;
  now_naive : Z;
  now_aware : Z;
  (** the [datetime] constructor applied to the fields of a time tuple *)
  datetime_of : list Z -> result Z;
  (** the network *)
  requests_get : string -> result response;
  list_models : stream ModelInfo;
  feedparser_parse : string -> result feed;
  requests_post : option string -> payload -> result unit;
  (** the interpreter: [repr] of a value that is no [str], [str] of an
      exception, the iteration order of a set *)
  py_repr : json -> string;
  exn_str : exn -> string;
  set_order : gset hkey -> list hkey
}.

(** What a run does to the outside, in order. *)
Inductive event : Type :=
  | EvPrint (line : string)
  | EvGet (url : string)
  | EvListModels
  | EvParse (url : string)
  | EvExists (path : string)
  | EvRead (path : string)
  | EvWrite (path : string) (c : content)
  | EvPost (url : option string) (p : payload).

(** ** The monad of the script: reads the environment, threads the state
    of the history file, logs events, may raise. *)
Definition M (A : Type) : Type :=
  env -> option content -> result A * option content * list event.

Definition ret {A : Type} (a : A) : M A := fun _ fs => (Ok a, fs, []).

Definition bind {A B : Type} (m : M A) (f : A -> M B) : M B :=
  fun E fs =>
    match m E fs with
    | (Ok a, fs', evs) =>
        let '(r, fs'', evs') := f a E fs' in (r, fs'', evs ++ evs')
    | (Raise e, fs', evs) => (Raise e, fs', evs)
    end.

Declare Scope M_scope.
Delimit Scope M_scope with M.
Notation "x <- m ;; k" := (bind m (fun x => k))
  (at level 100, m at next level, right associativity) : M_scope.
Notation "m ;; k" := (bind m (fun _ => k))
  (at level 100, right associativity) : M_scope.

Definition lift {A : Type} (r : result A) : M A := fun _ fs => (r, fs, []).

Definition asks {A : Type} (f : env -> A) : M A := fun E fs => (Ok (f E), fs, []).

Definition emit (ev : event) : M unit := fun _ fs => (Ok tt, fs, [ev]).

(** [try: body except: handler] *)
Definition try_except {A : Type} (body : M A) (handler : exn -> M A) : M A :=
  fun E fs =>
    match body E fs with
    | (Ok a, fs', evs) => (Ok a, fs', evs)
    | (Raise e, fs', evs) =>
        let '(r, fs'', evs') := handler e E fs' in (r, fs'', evs ++ evs')
    end.

Definition print (line : string) : M unit := emit (EvPrint line).

Definition outcome {A : Type} (x : result A * option content * list event) : result A := x.1.1.
Definition file_after {A : Type} (x : result A * option content * list event) : option content := x.1.2.
Definition events {A : Type} (x : result A * option content * list event) : list event := x.2.

(** ** Primitive effects *)

Definition HISTORY_FILE : string := "seen_ids.json".

Definition http_get (url : string) : M response :=
  fun E fs => (requests_get E url, fs, [EvGet url]).

Definition http_post (url : option string) (p : payload) : M unit :=
  fun E fs => (requests_post E url p, fs, [EvPost url p]).

Definition api_list_models : M (stream ModelInfo) :=
  fun E fs => (Ok (list_models E), fs, [EvListModels]).

Definition feed_parse (url : string) : M feed :=
  fun E fs => (feedparser_parse E url, fs, [EvParse url]).

(** [datetime(...)] on the fields of a time tuple *)
Definition make_datetime (t : list Z) : M Z :=
  fun E fs => (datetime_of E t, fs, []).

(** [os.path.exists(HISTORY_FILE)] *)
Definition path_exists : M bool :=
  fun _ fs => (Ok (truthy fs), fs, [EvExists HISTORY_FILE]).

(** [json.load] on the opened history file *)
Definition json_load : M json :=
  fun _ fs =>
    (match fs with
     | Some (Doc j) => Ok j
     | Some Garbage => Raise JSONDecodeError
     | None => Raise (OtherException "FileNotFoundError")
     end, fs, [EvRead HISTORY_FILE]).

(** [json.dump] into the history file opened for writing *)
Definition json_dump (j : json) : M unit :=
  fun _ _ => (Ok tt, Some (Doc j), [EvWrite HISTORY_FILE (Doc j)]).

(** [str(v)], as an f-string applies it *)
Definition py_str (repr : json -> string) (v : json) : string :=
  match v with
  | JStr s => s
  | _ => repr v
  end.

(** [o.attr] on an object whose attribute may be missing *)
Definition getattr {A : Type} (a : option A) : result A :=
  match a with
  | Some x => Ok x
  | None => Raise AttributeError
  end.

Local Open Scope M_scope.

(** ** Data sources *)

Definition paper_item (repr : json -> string) (paper : json) : result Item :=
  (p <- py_getitem paper "paper" ;;
   i <- py_getitem p "id" ;;
   t <- py_getitem p "title" ;;
   i' <- py_getitem p "id" ;;
   Ok {| item_id := i;
         item_title := t;
         item_link := "https://huggingface.co/papers/" +:+ py_str repr i';
         item_type := Paper;
         item_likes := None |})%result.

Fixpoint papers_loop (repr : json -> string) (data : list json) (papers : list Item)
  : result (list Item) :=
  match data with
  | [] => Ok papers
  | paper :: rest =>
      (it <- paper_item repr paper ;;
       papers_loop repr rest (papers ++ [it]))%result
  end.

Definition get_huggingface_daily_papers : M (list Item) :=
  today <- asks today_ymd ;;
  let url := "https://huggingface.co/api/daily_papers?date=" +:+ today in
  try_except
    (response <- http_get url ;;
     if negb (status_code response =? 200) then ret []
     else
       data <- lift (response_json response) ;;
       repr <- asks py_repr ;;
       top <- lift (rbind (py_slice_to 5 data) py_iter) ;;
       lift (papers_loop repr top []))
    (fun e =>
       msg <- asks (fun E => exn_str E e) ;;
       print ("Error fetching papers: " +:+ msg) ;;
       ret []).

Definition model_item (m : ModelInfo) : Item :=
  {| item_id := JStr (modelId m);
     item_title := JStr (modelId m);
     item_link := "https://huggingface.co/" +:+ modelId m;
     item_type := Model;
     item_likes := Some (likes m) |}.

(** [m.lastModified and (now - m.lastModified).days < 2]; [and] evaluates
    its right operand only when the left one is true. *)
Definition recently_modified (now : Z) (m : ModelInfo) : result bool :=
  if truthy (lastModified m) then
    (delta <- datetime_sub now (lastModified m) ;;
     Ok (timedelta_days delta <? 2))%result
  else Ok false.

Fixpoint models_loop (now : Z) (models : stream ModelInfo) (new_models : list Item)
  : result (list Item) :=
  match models with
  | SNil => Ok new_models
  | SRaise e => Raise e
  | SCons m rest =>
      (keep <- recently_modified now m ;;
       if keep : bool then
         let new_models' := new_models ++ [model_item m] in
         if (5 <=? length new_models')%nat then Ok new_models'
         else models_loop now rest new_models'
       else models_loop now rest new_models)%result
  end.

Definition get_trending_models : M (list Item) :=
  models <- api_list_models ;;
  now <- asks now_aware ;;
  lift (models_loop now models []).

Definition feeds : list (string * string) :=
  [ ("OpenAI", "https://openai.com/index.xml");
    ("Anthropic", "https://www.anthropic.com/feed");
    ("DeepMind", "https://deepmind.google/blog/rss.xml");
    ("Hugging Face", "https://huggingface.co/blog/feed.xml") ].

(** The body of the [try] for one feed; it yields the list [news] as the
    iteration leaves it. *)
Definition news_of_feed (source url : string) (news : list Item) : M (list Item) :=
  feed <- feed_parse url ;;
  match entries feed with
  | [] => ret news
  | entry :: _ =>
      pp <- lift (getattr (entry_published_parsed entry)) ;;
      t <- lift (match pp with Some t => Ok (take 6 t) | None => Raise TypeError end) ;;
      published <- make_datetime t ;;
      now <- asks now_naive ;;
      if timedelta_days (now - published) <? 1 then
        l <- lift (getattr (entry_link entry)) ;;
        ti <- lift (getattr (entry_title entry)) ;;
        l' <- lift (getattr (entry_link entry)) ;;
        ret (news ++ [ {| item_id := JStr l;
                          item_title := JStr (source +:+ ": " +:+ ti);
                          item_link := l';
                          item_type := News;
                          item_likes := None |} ])
      else ret news
  end.

Fixpoint news_loop (fs : list (string * string)) (news : list Item) : M (list Item) :=
  match fs with
  | [] => ret news
  | (source, url) :: rest =>
      news' <- try_except (news_of_feed source url news) (fun _ => ret news) ;;
      news_loop rest news'
  end.

Definition get_lab_news : M (list Item) := news_loop feeds [].

(** ** Core logic *)

Definition load_history : M (gset hkey) :=
  there <- path_exists ;;
  if there : bool then
    j <- json_load ;;
    lift (py_set j)
  else ret ∅.

(** [l[-n:]] *)
Definition last_n {A : Type} (n : nat) (l : list A) : list A :=
  drop (length l - n) l.

Definition save_history (new_ids old_history : gset hkey) : M unit :=
  order <- asks set_order ;;
  let updated := last_n 1000 (order (old_history ∪ new_ids)) in
  json_dump (JArr (json_of_key <$> updated)).

Definition nl : string := String (ascii_of_nat 10) EmptyString.

Definition bullet (repr : json -> string) (i : Item) : string :=
  "• **[" +:+ py_str repr (item_title i) +:+ "](" +:+ item_link i +:+ ")**".

(** The line of a model reads [m['likes']], a [KeyError] when the key is
    not there. *)
Definition model_bullet (repr : json -> string) (m : Item) : result string :=
  match item_likes m with
  | Some n => Ok (bullet repr m +:+ " (⭐ " +:+ pretty n +:+ ")")
  | None => Raise KeyError
  end.

Definition news_section (repr : json -> string) (news : list Item) : field :=
  {| field_name := "📢 Industry News";
     field_value := String.concat nl (bullet repr <$> news);
     field_inline := false |}.

Definition models_section (lines : list string) : field :=
  {| field_name := "🚀 Trending Models";
     field_value := String.concat nl lines;
     field_inline := false |}.

Definition papers_section (repr : json -> string) (papers : list Item) : field :=
  {| field_name := "📚 Daily Papers";
     field_value := String.concat nl (bullet repr <$> papers);
     field_inline := false |}.

Definition build_fields (repr : json -> string) (items : list Item) : result (list field) :=
  let papers := filter (fun i => item_type i = Paper) items in
  let models := filter (fun i => item_type i = Model) items in
  let news := filter (fun i => item_type i = News) items in
  let fields := [] in
  let fields :=
    match news with
    | [] => fields
    | _ => fields ++ [news_section repr news]
    end in
  (fields <- match models with
             | [] => Ok fields
             | _ => lines <- map_result (model_bullet repr) models ;;
                    Ok (fields ++ [models_section lines])
             end ;;
   Ok match papers with
      | [] => fields
      | _ => fields ++ [papers_section repr papers]
      end)%result.

Definition send_discord_digest (items : list Item) : M unit :=
  match items with
  | [] => ret tt
  | _ =>
      repr <- asks py_repr ;;
      fields <- lift (build_fields repr items) ;;
      date <- asks today_b_d ;;
      let payload :=
        {| embeds :=
             [ {| embed_title := "Daily AI Briefing • " +:+ date;
                  embed_description := "Here are the top trending updates for today.";
                  embed_color := 3447003;
                  embed_fields := fields;
                  embed_footer := "Sources: Hugging Face & Corporate Blogs" |} ] |} in
      url <- asks WEBHOOK_URL ;;
      http_post url payload
  end.

(** [[item for item in candidates if item['id'] not in history]] *)
Fixpoint select_new (history : gset hkey) (candidates : list Item) : result (list Item) :=
  match candidates with
  | [] => Ok []
  | item :: rest =>
      (k <- py_hash (item_id item) ;;
       new_rest <- select_new history rest ;;
       Ok (if decide (k ∈ history) then new_rest else item :: new_rest))%result
  end.

(** [not WEBHOOK_URL] *)
Definition url_missing (url : option string) : bool :=
  match url with
  | None | Some "" => true
  | Some _ => false
  end.

Definition main : M unit :=
  url <- asks WEBHOOK_URL ;;
  if url_missing url then print "No Webhook URL found."
  else
    history <- load_history ;;
    papers <- get_huggingface_daily_papers ;;
    models <- get_trending_models ;;
    news <- get_lab_news ;;
    let candidates := papers ++ models ++ news in
    new_items <- lift (select_new history candidates) ;;
    match new_items with
    | _ :: _ =>
        print ("Found " +:+ pretty (length new_items) +:+ " new items. Sending digest...") ;;
        send_discord_digest new_items ;;
        new_ids <- lift (rbind (map_result (fun item => py_hash (item_id item)) new_items)
                               (fun ks => Ok (list_to_set ks))) ;;
        save_history new_ids history
    | [] => print "No new items to report."
    end.

(** * Vocabulary of the properties *)

(** ** The orchestrator, in two halves *)

(** The candidate list of [main]: the three adapters, one after the
    other, their lists concatenated. *)
Definition fetch_all : M (list Item) :=
  papers <- get_huggingface_daily_papers ;;
  models <- get_trending_models ;;
  news <- get_lab_news ;;
  ret (papers ++ models ++ news).

(** The line a run prints when it has found new items. *)
Definition found_line (new_items : list Item) : string :=
  "Found " +:+ pretty (length new_items) +:+ " new items. Sending digest...".

(** What [main] does once it has the history and the candidates. *)
Definition deliver (history : gset hkey) (candidates : list Item) : M unit :=
  new_items <- lift (select_new history candidates) ;;
  match new_items with
  | _ :: _ =>
      print (found_line new_items) ;;
      send_discord_digest new_items ;;
      new_ids <- lift (rbind (map_result (fun item => py_hash (item_id item)) new_items)
                             (fun ks => Ok (list_to_set ks))) ;;
      save_history new_ids history
  | [] => print "No new items to report."
  end.

(** ** The models adapter *)

(** The recency test as a predicate: a last-modified instant is there and
    lies fewer than two whole days before [now]. *)
Definition is_recent (now : Z) (m : ModelInfo) : bool :=
  match lastModified m with
  | Some t => timedelta_days (now - t) <? 2
  | None => false
  end.

(** The candidates of [ms] that pass the recency test, in listing order. *)
Definition recent_models (now : Z) (ms : list ModelInfo) : list ModelInfo :=
  filter (fun m => is_recent now m = true) ms.

(** C5 as worded: every candidate is kept exactly when its day difference
    is below two. *)
Definition kept_iff_recent : Prop :=
  forall (now : Z) (ms : list ModelInfo) (m : ModelInfo) (r : list Item),
    m ∈ ms ->
    models_loop now (stream_of_list ms) [] = Ok r ->
    (model_item m ∈ r <->
     exists t, lastModified m = Some t /\ timedelta_days (now - t) < 2).

(** ** Contracts of computations *)

(** An adapter honours the contract when, whatever the environment does,
    it returns a list, leaves the history file alone, and every item of the
    list carries the adapter's type tag (the keys [id], [title], [link] and
    [type] are set in every item built). *)
Definition honours_contract (ty : ItemType) (adapter : M (list Item)) : Prop :=
  forall E fs, exists items evs,
    adapter E fs = (Ok items, fs, evs) /\ Forall (fun i => item_type i = ty) items.

(** [file_blind m]: in every environment the result and the events of [m]
    are the same whatever the file holds, and [m] leaves the file as it
    found it. *)
Definition file_blind {A : Type} (m : M A) : Prop :=
  forall E, exists r evs, forall fs, m E fs = (r, fs, evs).

(** [emits_only P m]: every event of [m] satisfies [P]. *)
Definition emits_only {A : Type} (P : event -> Prop) (m : M A) : Prop :=
  forall E fs, Forall P (events (m E fs)).

(** Events other than a post to the webhook or a write of the history. *)
Definition read_only (ev : event) : Prop :=
  match ev with
  | EvPost _ _ | EvWrite _ _ => False
  | _ => True
  end.

(** The payloads a run posted. *)
Definition posts (evs : list event) : list payload :=
  omap (fun ev => match ev with EvPost _ p => Some p | _ => None end) evs.

(** ** The history file *)

(** A list or a dict cannot be put in a set. *)
Definition unhashable (v : json) : bool :=
  match v with
  | JArr _ | JObj _ => true
  | _ => false
  end.

(** The JSON documents [set(...)] rejects: a value that is not iterable,
    or an array with an unhashable element. *)
Definition set_rejects (j : json) : bool :=
  match j with
  | JNull | JBool _ | JNum _ => true
  | JArr l => existsb unhashable l
  | JStr _ | JObj _ => false
  end.

(** C9 as worded: loading raises exactly when the file is there and holds
    malformed JSON. *)
Definition raises_only_on_garbage : Prop :=
  forall E fs,
    (exists e, outcome (load_history E fs) = Raise e) <-> fs = Some Garbage.

(** The number of entries of the persisted history. *)
Definition history_size (fs : option content) : nat :=
  match fs with
  | Some (Doc (JArr l)) => length l
  | _ => 0%nat
  end.

(** A run leaves the file as it found it, or leaves an array with at most
    1000 elements. *)
Definition same_or_capped (fs fs' : option content) : Prop :=
  fs' = fs \/ exists l, fs' = Some (Doc (JArr l)) /\ (length l <= 1000)%nat.

(** The history file after a sequence of runs, one environment per run. *)
Fixpoint runs (Es : list env) (fs : option content) : option content :=
  match Es with
  | [] => fs
  | E :: rest => runs rest (file_after (main E fs))
  end.

(** An item whose id is in the history. *)
Definition seen (history : gset hkey) (item : Item) : Prop :=
  exists k, py_hash (item_id item) = Ok k /\ k ∈ history.

(** ** The digest *)

(** An item the formatter can render: a model item carries [likes] (as
    every item of the models adapter does). *)
Definition displayable (i : Item) : Prop :=
  item_type i = Model -> is_Some (item_likes i).

(** The digest in the words of the specification: the items are
    partitioned by type; each type with at least one item gets one section,
    a bulleted list of its items in their order in the input (with the like
    count for models); the sections come in the order News, Models,
    Papers. *)
Definition of_type (ty : ItemType) (items : list Item) : list Item :=
  filter (fun i => item_type i = ty) items.

Definition section_name (ty : ItemType) : string :=
  match ty with
  | News => "📢 Industry News"
  | Model => "🚀 Trending Models"
  | Paper => "📚 Daily Papers"
  end.

Definition item_line (repr : json -> string) (i : Item) : string :=
  match item_type i, item_likes i with
  | Model, Some n => bullet repr i +:+ " (⭐ " +:+ pretty n +:+ ")"
  | _, _ => bullet repr i
  end.

Definition section_of (repr : json -> string) (items : list Item) (ty : ItemType)
  : list field :=
  match of_type ty items with
  | [] => []
  | its => [ {| field_name := section_name ty;
                field_value := String.concat nl (item_line repr <$> its);
                field_inline := false |} ]
  end.

Definition digest_sections (repr : json -> string) (items : list Item) : list field :=
  section_of repr items News ++ section_of repr items Model ++ section_of repr items Paper.

(** The message posted for the items [items]. *)
Definition digest_payload (E : env) (items : list Item) : payload :=
  {| embeds :=
       [ {| embed_title := "Daily AI Briefing • " +:+ today_b_d E;
            embed_description := "Here are the top trending updates for today.";
            embed_color := 3447003;
            embed_fields := digest_sections (py_repr E) items;
            embed_footer := "Sources: Hugging Face & Corporate Blogs" |} ] |}.

(** ** Environments and inputs of the examples *)

(** The environment [E] with another model listing. *)
Definition with_models (E : env) (s : stream ModelInfo) : env :=
  {| WEBHOOK_URL := WEBHOOK_URL E;
     today_ymd := today_ymd E;
     today_b_d := today_b_d E;
     now_naive := now_naive E;
     now_aware := now_aware E;
     datetime_of := datetime_of E;
     requests_get := requests_get E;
     list_models := s;
     feedparser_parse := feedparser_parse E;
     requests_post := requests_post E;
     py_repr := py_repr E;
     exn_str := exn_str E;
     set_order := set_order E |}.

(** The environment [E] with another answer of the papers API. *)
Definition with_get (E : env) (get : string -> result response) : env :=
  {| WEBHOOK_URL := WEBHOOK_URL E;
     today_ymd := today_ymd E;
     today_b_d := today_b_d E;
     now_naive := now_naive E;
     now_aware := now_aware E;
     datetime_of := datetime_of E;
     requests_get := get;
     list_models := list_models E;
     feedparser_parse := feedparser_parse E;
     requests_post := requests_post E;
     py_repr := py_repr E;
     exn_str := exn_str E;
     set_order := set_order E |}.

(** The environment [E] with another webhook setting. *)
Definition with_webhook (E : env) (url : option string) : env :=
  {| WEBHOOK_URL := url;
     today_ymd := today_ymd E;
     today_b_d := today_b_d E;
     now_naive := now_naive E;
     now_aware := now_aware E;
     datetime_of := datetime_of E;
     requests_get := requests_get E;
     list_models := list_models E;
     feedparser_parse := feedparser_parse E;
     requests_post := requests_post E;
     py_repr := py_repr E;
     exn_str := exn_str E;
     set_order := set_order E |}.

(** An environment in which the webhook is configured, every source
    answers and has nothing to offer, and the post succeeds. *)
Definition quiet_env : env :=
  {| WEBHOOK_URL := Some "https://discord.example/api/webhooks/1";
     today_ymd := "2025-01-15";
     today_b_d := "Jan 15";
     now_naive := 20103 * day_us;
     now_aware := 20103 * day_us;
     datetime_of := fun _ => Raise ValueError;
     requests_get := fun _ => Ok (mkResponse 200 (Ok (JArr [])));
     list_models := SNil;
     feedparser_parse := fun _ => Ok (mkFeed []);
     requests_post := fun _ _ => Ok tt;
     py_repr := fun _ => "None";
     exn_str := fun _ => "";
     set_order := elements |}.

(** The papers API lists A and then B (title T); the other sources have
    nothing. *)
Definition scenario_env : env :=
  {| WEBHOOK_URL := Some "https://discord.example/api/webhooks/1";
     today_ymd := "2025-01-15";
     today_b_d := "Jan 15";
     now_naive := 20103 * day_us;
     now_aware := 20103 * day_us;
     datetime_of := fun _ => Raise ValueError;
     requests_get := fun _ =>
       Ok (mkResponse 200
             (Ok (JArr [JObj [("paper", JObj [("id", JStr "A"); ("title", JStr "S")])];
                        JObj [("paper", JObj [("id", JStr "B"); ("title", JStr "T")])]])));
     list_models := SNil;
     feedparser_parse := fun _ => Ok (mkFeed []);
     requests_post := fun _ _ => Ok tt;
     py_repr := fun _ => "None";
     exn_str := fun _ => "";
     set_order := elements |}.

(** A model modified one microsecond less than two days ago (day
    difference 1) and one modified exactly two days ago (day difference 2). *)
Definition model_day1 : ModelInfo :=
  mkModelInfo "org/day1" (Some (20103 * day_us - (2 * day_us - 1))) 10.

Definition model_day2 : ModelInfo :=
  mkModelInfo "org/day2" (Some (20103 * day_us - 2 * day_us)) 20.

(** Six candidates, each modified within the last hours of instant [now6];
    the last one is the most recently modified of all. *)
Definition now6 : Z := 100 * day_us.

Definition six_recent_models : list ModelInfo :=
  [ mkModelInfo "org/m1" (Some (now6 - 5000000)) 900;
    mkModelInfo "org/m2" (Some (now6 - 4000000)) 800;
    mkModelInfo "org/m3" (Some (now6 - 3000000)) 700;
    mkModelInfo "org/m4" (Some (now6 - 2000000)) 600;
    mkModelInfo "org/m5" (Some (now6 - 1000000)) 500;
    mkModelInfo "org/m6" (Some now6) 400 ].

(** A history file that has reached the cap: 1000 ids. *)
Definition thousand_ids : list string :=
  (fun n : nat => "id-" +:+ pretty n) <$> seq 0 1000.

Definition full_history : option content :=
  Some (Doc (JArr (JStr <$> thousand_ids))).

Definition thousand_keys : gset hkey := list_to_set (KStr <$> thousand_ids).

(** A set iteration order that starts with [k] when [k] is in the set. *)
Definition front_order (k : hkey) (s : gset hkey) : list hkey :=
  if decide (k ∈ s) then k :: elements (s ∖ {[ k ]}) else elements s.

(** The papers API answers with one paper, B; nothing else is on offer; the
    interpreter iterates a set that holds ["B"] starting with ["B"]. *)
Definition cap_env : env :=
  {| WEBHOOK_URL := Some "https://discord.example/api/webhooks/1";
     today_ymd := "2025-01-15";
     today_b_d := "Jan 15";
     now_naive := 20103 * day_us;
     now_aware := 20103 * day_us;
     datetime_of := fun _ => Raise ValueError;
     requests_get := fun _ =>
       Ok (mkResponse 200
             (Ok (JArr [JObj [("paper", JObj [("id", JStr "B"); ("title", JStr "T")])]])));
     list_models := SNil;
     feedparser_parse := fun _ => Ok (mkFeed []);
     requests_post := fun _ _ => Ok tt;
     py_repr := fun _ => "None";
     exn_str := fun _ => "";
     set_order := front_order (KStr "B") |}.

Definition item_B : Item :=
  {| item_id := JStr "B";
     item_title := JStr "T";
     item_link := "https://huggingface.co/papers/B";
     item_type := Paper;
     item_likes := None |}.

Definition digest_B : payload :=
  {| embeds :=
       [ {| embed_title := "Daily AI Briefing • Jan 15";
            embed_description := "Here are the top trending updates for today.";
            embed_color := 3447003;
            embed_fields :=
              [ {| field_name := "📚 Daily Papers";
                   field_value := "• **[T](https://huggingface.co/papers/B)**";
                   field_inline := false |} ];
            embed_footer := "Sources: Hugging Face & Corporate Blogs" |} ] |}.

(** ** The adapters, case by case *)

(** The address the papers adapter requests. *)
Definition papers_url (E : env) : string :=
  "https://huggingface.co/api/daily_papers?date=" +:+ today_ymd E.

(** The item the news adapter builds from a link and a title. *)
Definition news_item (source l ti : string) : Item :=
  {| item_id := JStr l;
     item_title := JStr (source +:+ ": " +:+ ti);
     item_link := l;
     item_type := News;
     item_likes := None |}.

(** What one feed adds to the news: the item of its first entry when the
    feed parses, the entry has a time tuple that makes a datetime less than
    24 hours before now, a link and a title; nothing otherwise. *)
Definition feed_items (E : env) (source url : string) : list Item :=
  match feedparser_parse E url with
  | Ok {| entries := en :: _ |} =>
      match entry_published_parsed en, entry_link en, entry_title en with
      | Some (Some t), Some l, Some ti =>
          match datetime_of E (take 6 t) with
          | Ok published =>
              if decide (now_naive E - published < day_us)
              then [news_item source l ti] else []
          | Raise _ => []
          end
      | _, _, _ => []
      end
  | _ => []
  end.

(** The candidate is not in the history (its id being hashable). *)
Definition is_new (history : gset hkey) (item : Item) : bool :=
  match py_hash (item_id item) with
  | Ok k => bool_decide (k ∉ history)
  | Raise _ => false
  end.

(** The hash keys of the ids of [items] (of those that are hashable). *)
Definition item_keys (items : list Item) : list hkey :=
  omap (fun i => match py_hash (item_id i) with Ok k => Some k | Raise _ => None end)
       items.

(** The three shapes of a run from the file state [fs]: only reads and
    prints; or these, then one post that raises; or these, then one post
    that returns and one write of the history. *)
Definition run_shaped (E : env) (fs : option content)
  (x : result unit * option content * list event) : Prop :=
  exists pre, Forall read_only pre /\
    ((events x = pre /\ file_after x = fs)
     \/ (exists p e,
           events x = pre ++ [EvPost (WEBHOOK_URL E) p]
           /\ requests_post E (WEBHOOK_URL E) p = Raise e
           /\ outcome x = Raise e
           /\ file_after x = fs)
     \/ (exists p c,
           events x = pre ++ [EvPost (WEBHOOK_URL E) p; EvWrite HISTORY_FILE c]
           /\ requests_post E (WEBHOOK_URL E) p = Ok tt
           /\ outcome x = Ok tt
           /\ file_after x = Some c)).

(** * Properties *)

(** ** Generic facts about the monad *)

Lemma bind_Ok {A B : Type} (m : M A) (f : A -> M B) E fs a fs1 ev1 :
  m E fs = (Ok a, fs1, ev1) ->
  bind m f E fs = ((f a E fs1).1.1, (f a E fs1).1.2, ev1 ++ (f a E fs1).2).
Proof. intros H. unfold bind. rewrite H. by destruct (f a E fs1) as [[? ?] ?]. Qed.

(** ** The models adapter: recency test and the limit of five *)

Lemma recently_modified_is_recent now m :
  recently_modified now m = Ok (is_recent now m).
Proof. unfold recently_modified, is_recent. by destruct (lastModified m). Qed.

Lemma is_recent_iff now m :
  is_recent now m = true <->
  exists t, lastModified m = Some t /\ timedelta_days (now - t) < 2.
Proof.
  unfold is_recent. destruct (lastModified m) as [t|]; split.
  - intros H. exists t. split; [done|]. by apply Z.ltb_lt.
  - intros (t' & [= <-] & H). by apply Z.ltb_lt.
  - discriminate.
  - by intros (t' & [=] & _).
Qed.

Lemma models_loop_cons now m rest acc :
  models_loop now (SCons m rest) acc =
    if is_recent now m then
      if (5 <=? length (acc ++ [model_item m]))%nat then Ok (acc ++ [model_item m])
      else models_loop now rest (acc ++ [model_item m])
    else models_loop now rest acc.
Proof. cbn [models_loop]. by rewrite recently_modified_is_recent. Qed.

(** The loop on a listing that starts with the candidates [pre]: when [pre]
    holds enough matches to fill [new_models] up to five, the loop stops
    there and what follows in the listing is never drawn; otherwise it goes
    on with every match of [pre] appended. *)
Lemma models_loop_app now pre tail acc :
  (length acc < 5)%nat ->
  models_loop now (stream_app pre tail) acc =
    let kept := filter (fun m => is_recent now m = true) pre in
    if decide (5 - length acc <= length kept)%nat
    then Ok (acc ++ (model_item <$> take (5 - length acc) kept))
    else models_loop now tail (acc ++ (model_item <$> kept)).
Proof.
  revert acc. induction pre as [|m pre IH]; intros acc Hacc; cbn [stream_app].
  - cbn. case_decide; [lia|]. by rewrite app_nil_r.
  - rewrite models_loop_cons. cbv zeta.
    destruct (is_recent now m) eqn:Hm.
    + rewrite filter_cons_True by done.
      destruct (5 <=? length (acc ++ [model_item m]))%nat eqn:Hfull.
      * apply Nat.leb_le in Hfull. rewrite length_app in Hfull. simpl in Hfull.
        assert (5 - length acc = 1)%nat as -> by lia.
        case_decide; [|simpl in *; lia]. done.
      * apply Nat.leb_gt in Hfull. rewrite length_app in Hfull. simpl in Hfull.
        rewrite IH by (rewrite length_app; simpl; lia).
        rewrite length_app. cbn [length].
        destruct (5 - length acc)%nat as [|k] eqn:Hk; [lia|].
        assert (5 - (length acc + 1) = k)%nat as -> by lia.
        cbv zeta. cbn [length take fmap list_fmap].
        repeat case_decide; try lia; by rewrite <- app_assoc.
    + rewrite filter_cons_False by (rewrite Hm; done).
      by apply IH.
Qed.

Lemma models_loop_list now ms :
  models_loop now (stream_of_list ms) [] =
    Ok (model_item <$> take 5 (filter (fun m => is_recent now m = true) ms)).
Proof.
  unfold stream_of_list. rewrite models_loop_app by (simpl; lia). cbv zeta.
  cbn [length app]. case_decide; [done|].
  rewrite take_ge by lia. done.
Qed.

Lemma get_trending_models_run E fs :
  get_trending_models E fs =
    (models_loop (now_aware E) (list_models E) [], fs, [EvListModels]).
Proof.
  unfold get_trending_models, bind, api_list_models, asks, lift. cbn.
  by destruct (models_loop _ _ _).
Qed.

(** C6. On a candidate list [ms] (whatever its order and length) the models
    adapter returns the first five candidates of [ms] that pass the recency
    test, in listing order, hence at most five items.  The limit cuts the
    loop short: on a listing that starts with [ms], once [ms] holds five
    matches the result is fixed and the rest of the listing [tail] is never
    drawn (not even when drawing it would raise); with fewer matches the
    loop goes on into [tail]. *)
Theorem models_first_five_recent E fs ms tail :
  get_trending_models (with_models E (stream_of_list ms)) fs =
    (Ok (model_item <$> take 5 (recent_models (now_aware E) ms)), fs, [EvListModels])
  /\ (length (model_item <$> take 5 (recent_models (now_aware E) ms)) <= 5)%nat
  /\ get_trending_models (with_models E (stream_app ms tail)) fs =
       (if decide (5 <= length (recent_models (now_aware E) ms))%nat
        then Ok (model_item <$> take 5 (recent_models (now_aware E) ms))
        else models_loop (now_aware E) tail (model_item <$> recent_models (now_aware E) ms),
        fs, [EvListModels]).
Proof.
  rewrite !get_trending_models_run. cbn [with_models list_models now_aware].
  split; [|split].
  - by rewrite models_loop_list.
  - rewrite length_fmap, length_take. lia.
  - rewrite models_loop_app by (simpl; lia). cbv zeta. cbn [length app].
    by change (5 - 0)%nat with 5%nat.
Qed.

(** The day difference counts whole periods of 24 hours, not calendar
    dates: a model modified 47 hours ago, two calendar days back, has day
    difference 1 and passes the test. *)
Example day_difference_counts_whole_days :
  timedelta_days ((3 * day_us + 3600000000) - (day_us + 7200000000)) = 1
  /\ (3 * day_us + 3600000000) / day_us - (day_us + 7200000000) / day_us = 2
  /\ is_recent (3 * day_us + 3600000000)
       (mkModelInfo "org/m" (Some (day_us + 7200000000)) 1) = true.
Proof. by vm_compute. Qed.

(** The five kept are the first five of the listing, not the five most
    recently modified. *)
Example first_five_not_most_recent :
  models_loop now6 (stream_of_list six_recent_models) [] =
    Ok (model_item <$> take 5 six_recent_models).
Proof. reflexivity. Qed.

(** C5, counterexample. The sixth of six recent candidates has day
    difference 0 and is not kept: the loop stopped at the fifth. *)
Lemma sixth_recent_model_not_kept : ~ kept_iff_recent.
Proof.
  intros H.
  specialize (H now6 six_recent_models (mkModelInfo "org/m6" (Some now6) 400)
                (model_item <$> take 5 six_recent_models)).
  destruct H as [_ H].
  - unfold six_recent_models. set_solver.
  - reflexivity.
  - assert (Hin : model_item (mkModelInfo "org/m6" (Some now6) 400)
                  ∈ model_item <$> take 5 six_recent_models).
    { apply H. exists now6. split; [done|]. by vm_compute. }
    apply list_elem_of_fmap in Hin as (m & Hm & Hin).
    cbn in Hin. unfold model_item in Hm. cbn in Hm.
    repeat (apply elem_of_cons in Hin as [-> | Hin]; [by inversion Hm|]).
    by apply elem_of_nil in Hin.
Qed.

(** C5, amended. A candidate [m] that the loop reaches before five matches
    have accumulated (fewer than five of the candidates [pre] listed before
    it pass the test) is kept, at its place in the listing, exactly when the
    recency test holds for it; and the test holds exactly when [m] has a
    last-modified instant whose day difference from now is below two (so 1
    is in, 2 or more is out). *)
Theorem recency_filter_below_cap E fs pre m post :
  (length (recent_models (now_aware E) pre) < 5)%nat ->
  get_trending_models (with_models E (stream_of_list (pre ++ m :: post))) fs =
    (Ok (model_item <$>
           (recent_models (now_aware E) pre
            ++ (if is_recent (now_aware E) m then [m] else [])
            ++ take (5 - length (recent_models (now_aware E) pre)
                       - (if is_recent (now_aware E) m then 1 else 0))
                    (recent_models (now_aware E) post))),
     fs, [EvListModels])
  /\ (is_recent (now_aware E) m = true <->
      exists t, lastModified m = Some t /\ timedelta_days (now_aware E - t) < 2).
Proof.
  intros Hpre. split; [|apply is_recent_iff].
  rewrite get_trending_models_run. cbn [with_models list_models now_aware].
  rewrite models_loop_list. do 3 f_equal.
  fold (recent_models (now_aware E) (pre ++ m :: post)).
  unfold recent_models in *. rewrite filter_app, take_app.
  rewrite take_ge by lia. f_equal.
  destruct (5 - length (filter (fun m0 => is_recent (now_aware E) m0 = true) pre))%nat
    as [|k] eqn:Hk; [lia|].
  destruct (is_recent (now_aware E) m) eqn:Hm.
  - rewrite filter_cons_True by done. cbn. by rewrite Nat.sub_0_r.
  - rewrite filter_cons_False by (rewrite Hm; done). cbn. done.
Qed.

Lemma recency_filter_below_cap_witness :
  (length (recent_models (now_aware quiet_env) []) < 5)%nat
  /\ get_trending_models
       (with_models quiet_env (stream_of_list ([] ++ model_day1 :: [model_day2]))) None =
     (Ok [model_item model_day1], None, [EvListModels]).
Proof.
  split; [cbn; lia|].
  exact (proj1 (recency_filter_below_cap quiet_env None [] model_day1 [model_day2]
                  ltac:(cbn; lia))).
Defined.

(** C10. The recency test never raises, whatever the candidate: a
    candidate whose [lastModified] is [None] fails the test on the left
    operand of [and], the subtraction (which raises on [None]) is not
    evaluated, and the loop passes over the candidate leaving [new_models]
    as it was. *)
Theorem missing_timestamp_skipped now m :
  lastModified m = None ->
  recently_modified now m = Ok false
  /\ datetime_sub now (lastModified m) = Raise TypeError
  /\ (forall rest acc, models_loop now (SCons m rest) acc = models_loop now rest acc)
  /\ (forall m' : ModelInfo, returns (recently_modified now m'))
  /\ (forall ms : list ModelInfo, returns (models_loop now (stream_of_list ms) [])).
Proof.
  intros Hm. repeat split.
  - unfold recently_modified. by rewrite Hm.
  - by rewrite Hm.
  - intros rest acc. rewrite models_loop_cons. unfold is_recent. by rewrite Hm.
  - intros m'. rewrite recently_modified_is_recent. by eexists.
  - intros ms. rewrite models_loop_list. by eexists.
Qed.

Lemma missing_timestamp_skipped_witness :
  lastModified (mkModelInfo "org/undated" None 7) = None
  /\ models_loop 0 (stream_of_list [mkModelInfo "org/undated" None 7]) [] = Ok [].
Proof.
  split; [reflexivity|].
  exact (proj1 (proj2 (proj2
           (missing_timestamp_skipped 0 (mkModelInfo "org/undated" None 7) eq_refl)))
           SNil []).
Defined.

(** ** The adapters' boundary *)

Lemma papers_loop_type repr data papers r :
  papers_loop repr data papers = Ok r ->
  Forall (fun i => item_type i = Paper) papers ->
  Forall (fun i => item_type i = Paper) r.
Proof.
  revert papers. induction data as [|paper rest IH]; intros papers; cbn.
  - by intros [= ->].
  - destruct (paper_item repr paper) as [it|e] eqn:Hit; cbn; [|discriminate].
    intros Hr Hp. apply (IH _ Hr). apply Forall_app. split; [done|].
    apply Forall_singleton.
    unfold paper_item, rbind in Hit. repeat case_match; simplify_eq. done.
Qed.

Lemma papers_honours_contract : honours_contract Paper get_huggingface_daily_papers.
Proof.
  intros E fs.
  unfold get_huggingface_daily_papers, try_except, bind, asks, http_get, lift, print,
    emit, ret. cbn.
  destruct (requests_get E _) as [[sc rj]|e]; cbn; [|by eauto].
  destruct (sc =? 200); cbn; [|by eauto].
  destruct rj as [data|e]; cbn; [|by eauto].
  destruct (rbind (py_slice_to 5 data) py_iter) as [top|e]; cbn; [|by eauto].
  destruct (papers_loop (py_repr E) top []) as [r|e] eqn:Hr; cbn; [|by eauto].
  do 2 eexists. split; [done|]. by eapply papers_loop_type.
Qed.

(** The papers adapter copies [id] and [title] as the API delivers them: a
    record whose [id] is null yields an item whose [id] is [None]. *)
Example papers_pass_values_through :
  outcome (get_huggingface_daily_papers
             (with_get quiet_env
                (fun _ => Ok (mkResponse 200
                   (Ok (JArr [JObj [("paper",
                                     JObj [("id", JNull); ("title", JStr "T")])]])))))
             None) =
    Ok [ {| item_id := JNull;
            item_title := JStr "T";
            item_link := "https://huggingface.co/papers/None";
            item_type := Paper;
            item_likes := None |} ].
Proof. reflexivity. Qed.

Lemma news_of_feed_run source url news E fs :
  Forall (fun i => item_type i = News) news ->
  exists news' evs,
    try_except (news_of_feed source url news) (fun _ => ret news) E fs = (Ok news', fs, evs)
    /\ Forall (fun i => item_type i = News) news'.
Proof.
  intros Hnews.
  unfold try_except, news_of_feed, bind, feed_parse, make_datetime, asks, lift, ret. cbn.
  destruct (feedparser_parse E url) as [[[|en ens]]|e]; cbn; [by eauto| |by eauto].
  destruct (getattr (entry_published_parsed en)) as [[t|]|e]; cbn; [| by eauto..].
  destruct (datetime_of E (take 6 t)) as [published|e]; cbn; [|by eauto].
  destruct (timedelta_days (now_naive E - published) <? 1); cbn; [|by eauto].
  destruct (getattr (entry_link en)) as [l|e]; cbn; [|by eauto].
  destruct (getattr (entry_title en)) as [ti|e]; cbn; [|by eauto].
  do 2 eexists. split; [done|]. apply Forall_app. split; [done|].
  by apply Forall_singleton.
Qed.

Lemma news_loop_run fds news E fs :
  Forall (fun i => item_type i = News) news ->
  exists items evs,
    news_loop fds news E fs = (Ok items, fs, evs)
    /\ Forall (fun i => item_type i = News) items.
Proof.
  revert news. induction fds as [|[source url] rest IH]; intros news Hnews; cbn.
  - by do 2 eexists.
  - destruct (news_of_feed_run source url news E fs Hnews) as (news' & ev1 & Hrun & Hn').
    destruct (IH news' Hn') as (items & ev2 & Hrest & Hitems).
    exists items, (ev1 ++ ev2). split; [|done].
    rewrite (bind_Ok _ _ _ _ _ _ _ Hrun), Hrest. done.
Qed.

Lemma news_honours_contract : honours_contract News get_lab_news.
Proof. intros E fs. by apply news_loop_run. Qed.

(** C1. The papers adapter and the news adapter honour the contract; the
    models adapter does not: it has no handler, and an exception of the
    listing call (here a connection error on the first page) leaves
    [get_trending_models] as it was raised. *)
Theorem models_adapter_raises E fs :
  honours_contract Paper get_huggingface_daily_papers
  /\ honours_contract News get_lab_news
  /\ get_trending_models (with_models E (SRaise ConnectionError)) fs =
       (Raise ConnectionError, fs, [EvListModels])
  /\ ~ honours_contract Model get_trending_models.
Proof.
  split; [apply papers_honours_contract|].
  split; [apply news_honours_contract|].
  split; [by rewrite get_trending_models_run|].
  intros H.
  destruct (H (with_models E (SRaise ConnectionError)) fs) as (items & evs & Hrun & _).
  by rewrite get_trending_models_run in Hrun.
Qed.

(** ** Computations that do not depend on the history file *)

Create HintDb frame.

Lemma blind_ret {A : Type} (a : A) : file_blind (ret a).
Proof. intros E. by exists (Ok a), []. Qed.

Lemma blind_lift {A : Type} (r : result A) : file_blind (lift r).
Proof. intros E. by exists r, []. Qed.

Lemma blind_asks {A : Type} (f : env -> A) : file_blind (asks f).
Proof. intros E. by exists (Ok (f E)), []. Qed.

Lemma blind_emit ev : file_blind (emit ev).
Proof. intros E. by exists (Ok tt), [ev]. Qed.

Lemma blind_print line : file_blind (print line).
Proof. apply blind_emit. Qed.

Lemma blind_http_get url : file_blind (http_get url).
Proof. intros E. by exists (requests_get E url), [EvGet url]. Qed.

Lemma blind_http_post url p : file_blind (http_post url p).
Proof. intros E. by exists (requests_post E url p), [EvPost url p]. Qed.

Lemma blind_api_list_models : file_blind api_list_models.
Proof. intros E. by exists (Ok (list_models E)), [EvListModels]. Qed.

Lemma blind_feed_parse url : file_blind (feed_parse url).
Proof. intros E. by exists (feedparser_parse E url), [EvParse url]. Qed.

Lemma blind_make_datetime t : file_blind (make_datetime t).
Proof. intros E. by exists (datetime_of E t), []. Qed.

Lemma blind_bind {A B : Type} (m : M A) (f : A -> M B) :
  file_blind m -> (forall a, file_blind (f a)) -> file_blind (bind m f).
Proof.
  intros Hm Hf E. destruct (Hm E) as ([a|e] & ev1 & H1).
  - destruct (Hf a E) as (r & ev2 & H2). exists r, (ev1 ++ ev2). intros fs.
    unfold bind. by rewrite H1, H2.
  - exists (Raise e), ev1. intros fs. unfold bind. by rewrite H1.
Qed.

Lemma blind_try_except {A : Type} (body : M A) (handler : exn -> M A) :
  file_blind body -> (forall e, file_blind (handler e)) ->
  file_blind (try_except body handler).
Proof.
  intros Hm Hh E. destruct (Hm E) as ([a|e] & ev1 & H1).
  - exists (Ok a), ev1. intros fs. unfold try_except. by rewrite H1.
  - destruct (Hh e E) as (r & ev2 & H2). exists r, (ev1 ++ ev2). intros fs.
    unfold try_except. by rewrite H1, H2.
Qed.

#[export] Hint Resolve blind_ret blind_lift blind_asks blind_emit blind_print
  blind_http_get blind_http_post blind_api_list_models blind_feed_parse
  blind_make_datetime : frame.

(** Walks down a computation built from the primitives. *)
Ltac blind :=
  repeat first
    [ progress eauto with frame
    | apply blind_bind; [|intros ?]
    | apply blind_try_except; [|intros ?]
    | case_match ].

Lemma blind_papers : file_blind get_huggingface_daily_papers.
Proof. unfold get_huggingface_daily_papers. blind. Qed.

Lemma blind_models : file_blind get_trending_models.
Proof. unfold get_trending_models. blind. Qed.

Lemma blind_news_of_feed source url news : file_blind (news_of_feed source url news).
Proof.
  unfold news_of_feed. blind.
Qed.

Lemma blind_news_loop fds news : file_blind (news_loop fds news).
Proof.
  revert news. induction fds as [|[source url] rest IH]; intros news; cbn.
  - apply blind_ret.
  - apply blind_bind; [|done].
    apply blind_try_except; [apply blind_news_of_feed|intros; apply blind_ret].
Qed.

Lemma blind_news : file_blind get_lab_news.
Proof. apply blind_news_loop. Qed.

Lemma blind_send_discord_digest items : file_blind (send_discord_digest items).
Proof. unfold send_discord_digest. blind. Qed.

#[export] Hint Resolve blind_papers blind_models blind_news
  blind_send_discord_digest : frame.

(** ** Loading the history *)

Lemma load_history_run E fs :
  load_history E fs =
    match fs with
    | None => (Ok ∅, None, [EvExists HISTORY_FILE])
    | Some Garbage =>
        (Raise JSONDecodeError, fs, [EvExists HISTORY_FILE; EvRead HISTORY_FILE])
    | Some (Doc j) => (py_set j, fs, [EvExists HISTORY_FILE; EvRead HISTORY_FILE])
    end.
Proof.
  unfold load_history, bind, path_exists, json_load, lift, ret.
  destruct fs as [[|j]|]; cbn; try done; by destruct (py_set j).
Qed.

Lemma load_history_keeps_file E fs : file_after (load_history E fs) = fs.
Proof. rewrite load_history_run. by destruct fs as [[|j]|]. Qed.

Lemma map_result_py_hash_raises l :
  (exists e, map_result py_hash l = Raise e) <-> existsb unhashable l = true.
Proof.
  induction l as [|v rest IH]; cbn.
  - split; [by intros [e [=]]|done].
  - destruct v; cbn; try (by split; [|eauto]);
      (rewrite <- IH; destruct (map_result py_hash rest); cbn;
       split; intros [e' [=]]; eauto).
Qed.

Lemma map_result_py_hash_strings (f : string -> json) (g : string -> hkey) l :
  (forall s, py_hash (f s) = Ok (g s)) ->
  map_result py_hash (f <$> l) = Ok (g <$> l).
Proof.
  intros Hfg. induction l as [|s rest IH]; cbn; [done|].
  by rewrite Hfg, IH.
Qed.

Lemma py_set_raises j :
  (exists e, py_set j = Raise e) <-> set_rejects j = true.
Proof.
  unfold py_set. destruct j as [| | |s|l|kvs]; cbn;
    try (split; [done|by eauto]).
  - rewrite (map_result_py_hash_strings JStr KStr) by done. cbn.
    split; [by intros [e [=]]|done].
  - rewrite <- map_result_py_hash_raises.
    destruct (map_result py_hash l); cbn; split; intros [e' [=]]; eauto.
  - assert (map_result py_hash ((fun kv : string * json => JStr kv.1) <$> kvs)
            = Ok ((fun kv : string * json => KStr kv.1) <$> kvs)) as ->.
    { induction kvs as [|[k v] rest IH]; cbn; [done|]. by rewrite IH. }
    cbn. split; [by intros [e [=]]|done].
Qed.

Lemma load_history_strings E (ids : list string) :
  load_history E (Some (Doc (JArr (JStr <$> ids)))) =
    (Ok (list_to_set (KStr <$> ids)), Some (Doc (JArr (JStr <$> ids))),
     [EvExists HISTORY_FILE; EvRead HISTORY_FILE]).
Proof.
  rewrite load_history_run. unfold py_set. cbn.
  by rewrite (map_result_py_hash_strings JStr KStr).
Qed.

(** C9, counterexample. A history file that holds the well-formed JSON
    document [5] makes [set(...)] raise a [TypeError]. *)
Lemma load_history_raises_on_number :
  outcome (load_history quiet_env (Some (Doc (JNum 5)))) = Raise TypeError
  /\ ~ raises_only_on_garbage.
Proof.
  split; [reflexivity|]. intros H.
  destruct (H quiet_env (Some (Doc (JNum 5)))) as [H1 _].
  by specialize (H1 (ex_intro _ TypeError eq_refl)).
Qed.

(** C9, amended. Loading returns the empty set when the file is not
    there; returns the set of the elements when the file holds a JSON array
    of strings; raises, with no handler, when the file holds malformed JSON
    and also when it holds well-formed JSON that [set(...)] rejects (a
    number, a boolean, null, or an array with an array or object among its
    elements), and in no other case.  The file is left as it was. *)
Theorem load_history_cases E :
  load_history E None = (Ok ∅, None, [EvExists HISTORY_FILE])
  /\ (forall ids : list string,
        load_history E (Some (Doc (JArr (JStr <$> ids)))) =
          (Ok (list_to_set (KStr <$> ids)), Some (Doc (JArr (JStr <$> ids))),
           [EvExists HISTORY_FILE; EvRead HISTORY_FILE]))
  /\ load_history E (Some Garbage) =
       (Raise JSONDecodeError, Some Garbage,
        [EvExists HISTORY_FILE; EvRead HISTORY_FILE])
  /\ (forall fs,
        (exists e, outcome (load_history E fs) = Raise e) <->
        fs = Some Garbage \/ exists j, fs = Some (Doc j) /\ set_rejects j = true)
  /\ (forall fs, file_after (load_history E fs) = fs).
Proof.
  split; [by rewrite load_history_run|].
  split.
  { apply load_history_strings. }
  split; [by rewrite load_history_run|].
  split; [|apply load_history_keeps_file].
  intros fs. rewrite load_history_run. destruct fs as [[|j]|]; cbn.
  - split; [by left|by eauto].
  - unfold outcome. cbn. rewrite py_set_raises. split.
    + intros Hj. right. by exists j.
    + intros [[=]|(j' & [= <-] & Hj)]. done.
  - split; [by intros [e [=]]|]. by intros [[=]|(j & [=] & _)].
Qed.

(** ** The orchestrator, in two halves *)

Lemma bind_assoc {A B C : Type} (m : M A) (f : A -> M B) (g : B -> M C) E fs :
  bind (bind m f) g E fs = bind m (fun a => bind (f a) g) E fs.
Proof.
  unfold bind. destruct (m E fs) as [[[a|e] fs1] ev1]; [|done].
  destruct (f a E fs1) as [[[b|e] fs2] ev2]; [|done].
  destruct (g b E fs2) as [[r fs3] ev3]. by rewrite app_assoc.
Qed.

Lemma bind_ret_r {A B : Type} (m : M A) (f : A -> B) (g : B -> M unit) E fs :
  bind (bind m (fun a => ret (f a))) g E fs = bind m (fun a => g (f a)) E fs.
Proof.
  rewrite bind_assoc. unfold bind, ret.
  destruct (m E fs) as [[[a|e] fs1] ev1]; [|done].
  by destruct (g (f a) E fs1) as [[r fs2] ev2].
Qed.

Lemma bind_ext {A B : Type} (m : M A) (f g : A -> M B) E fs :
  (forall a E' fs', f a E' fs' = g a E' fs') ->
  bind m f E fs = bind m g E fs.
Proof.
  intros H. unfold bind. destruct (m E fs) as [[[a|e] fs1] ev1]; [|done].
  by rewrite H.
Qed.

Lemma main_halves E fs :
  main E fs =
    if url_missing (WEBHOOK_URL E) then (Ok tt, fs, [EvPrint "No Webhook URL found."])
    else bind load_history
           (fun history => bind fetch_all (fun candidates => deliver history candidates))
           E fs.
Proof.
  unfold main. unfold bind at 1. unfold asks at 1.
  destruct (url_missing (WEBHOOK_URL E)) eqn:Hurl.
  - cbn. done.
  - replace (let '(r, fs'', evs') := _ in (r, fs'', [] ++ evs')) with
      (bind load_history
         (fun history =>
            papers <- get_huggingface_daily_papers ;;
            models <- get_trending_models ;;
            news <- get_lab_news ;;
            deliver history (papers ++ models ++ news)) E fs).
    2:{ unfold deliver. by destruct (bind load_history _ E fs) as [[? ?] ?]. }
    apply bind_ext. intros history E' fs'. unfold fetch_all.
    rewrite bind_assoc. apply bind_ext. intros papers E'' fs''.
    rewrite bind_assoc. apply bind_ext. intros models E3 fs3.
    by rewrite bind_ret_r.
Qed.

Lemma blind_fetch_all : file_blind fetch_all.
Proof. unfold fetch_all. blind. Qed.

(** C8. With no webhook URL configured (the variable unset or empty), a
    run prints the diagnostic and does nothing else: no adapter is called,
    the history file is neither looked for, read nor written, nothing is
    posted, and the run ends normally. *)
Theorem main_aborts_without_webhook E fs :
  url_missing (WEBHOOK_URL E) = true ->
  main E fs = (Ok tt, fs, [EvPrint "No Webhook URL found."]).
Proof. intros Hurl. by rewrite main_halves, Hurl. Qed.

Lemma main_aborts_without_webhook_witness :
  url_missing (WEBHOOK_URL (with_webhook quiet_env None)) = true
  /\ main (with_webhook quiet_env None) (Some (Doc (JArr [JStr "A"]))) =
       (Ok tt, Some (Doc (JArr [JStr "A"])), [EvPrint "No Webhook URL found."]).
Proof.
  split; [reflexivity|].
  exact (main_aborts_without_webhook (with_webhook quiet_env None)
           (Some (Doc (JArr [JStr "A"]))) eq_refl).
Defined.

(** ** Saving the history: the cap *)

Lemma length_last_n {A : Type} (n : nat) (l : list A) : (length (last_n n l) <= n)%nat.
Proof. unfold last_n. rewrite length_drop. lia. Qed.

Lemma save_history_run new_ids old_history E fs :
  save_history new_ids old_history E fs =
    let updated := last_n 1000 (set_order E (old_history ∪ new_ids)) in
    (Ok tt, Some (Doc (JArr (json_of_key <$> updated))),
     [EvWrite HISTORY_FILE (Doc (JArr (json_of_key <$> updated)))]).
Proof. reflexivity. Qed.

Lemma deliver_file history candidates E fs :
  same_or_capped fs (file_after (deliver history candidates E fs)).
Proof.
  unfold deliver. unfold bind at 1. unfold lift at 1.
  destruct (select_new history candidates) as [[|item new_items]|e]; [by left| |by left].
  destruct (blind_print
              ("Found " +:+ pretty (length (item :: new_items)) +:+
               " new items. Sending digest...") E) as (rp & evp & Hp).
  destruct (blind_send_discord_digest (item :: new_items) E) as (rs & evs & Hs).
  unfold bind. rewrite Hp. destruct rp as [[]|e]; [|by left].
  rewrite Hs. destruct rs as [[]|e]; [|by left].
  unfold lift at 1.
  destruct (rbind _ _) as [new_ids|e]; [|by left].
  rewrite save_history_run. cbn. right. eexists. split; [done|].
  rewrite length_fmap. apply length_last_n.
Qed.

Lemma main_file E fs : same_or_capped fs (file_after (main E fs)).
Proof.
  rewrite main_halves. destruct (url_missing (WEBHOOK_URL E)); [by left|].
  unfold bind at 1. pose proof (load_history_keeps_file E fs) as Hl.
  destruct (load_history E fs) as [[[history|e] fs1] ev1]; cbn in Hl; subst fs1;
    [|by left].
  destruct (blind_fetch_all E) as (rc & evc & Hc).
  unfold bind at 1. rewrite Hc. destruct rc as [candidates|e]; [|by left].
  pose proof (deliver_file history candidates E fs) as Hd.
  by destruct (deliver history candidates E fs) as [[r fs2] ev2].
Qed.

(** C3. Whatever the old history and the new ids, [save_history] writes
    an array of at most 1000 elements; hence over any sequence of runs,
    whatever the sources deliver, a history file that starts with at most
    1000 entries (or is not there) never holds more than 1000. *)
Theorem history_never_exceeds_cap :
  (forall new_ids old_history E fs, exists l,
      save_history new_ids old_history E fs =
        (Ok tt, Some (Doc (JArr l)), [EvWrite HISTORY_FILE (Doc (JArr l))])
      /\ (length l <= 1000)%nat)
  /\ (forall Es fs,
        (history_size fs <= 1000)%nat -> (history_size (runs Es fs) <= 1000)%nat).
Proof.
  split.
  - intros new_ids old_history E fs. rewrite save_history_run. cbv zeta.
    eexists. split; [done|]. rewrite length_fmap. apply length_last_n.
  - intros Es. induction Es as [|E rest IH]; intros fs Hfs; cbn [runs]; [done|].
    apply IH. destruct (main_file E fs) as [->|(l & -> & Hl)]; done.
Qed.

Lemma history_never_exceeds_cap_witness :
  (history_size None <= 1000)%nat
  /\ (history_size (runs [quiet_env; quiet_env] None) <= 1000)%nat.
Proof.
  split; [cbn; lia|].
  exact (proj2 history_never_exceeds_cap [quiet_env; quiet_env] None ltac:(cbn; lia)).
Defined.

(** ** Runs that find nothing new *)

Lemma quiet_ret {A : Type} P (a : A) : emits_only P (ret a).
Proof. intros E fs. constructor. Qed.

Lemma quiet_lift {A : Type} P (r : result A) : emits_only P (lift r).
Proof. intros E fs. constructor. Qed.

Lemma quiet_asks {A : Type} P (f : env -> A) : emits_only P (asks f).
Proof. intros E fs. constructor. Qed.

Lemma quiet_emit (P : event -> Prop) ev : P ev -> emits_only P (emit ev).
Proof. intros H E fs. by apply Forall_singleton. Qed.

Lemma quiet_bind {A B : Type} P (m : M A) (f : A -> M B) :
  emits_only P m -> (forall a, emits_only P (f a)) -> emits_only P (bind m f).
Proof.
  intros Hm Hf E fs. specialize (Hm E fs). unfold events, bind in *.
  destruct (m E fs) as [[[a|e] fs1] ev1]; [|done].
  specialize (Hf a E fs1). unfold events in Hf.
  destruct (f a E fs1) as [[r fs2] ev2]. cbn in *. by apply Forall_app.
Qed.

Lemma quiet_try_except {A : Type} P (body : M A) (handler : exn -> M A) :
  emits_only P body -> (forall e, emits_only P (handler e)) ->
  emits_only P (try_except body handler).
Proof.
  intros Hm Hh E fs. specialize (Hm E fs). unfold events, try_except in *.
  destruct (body E fs) as [[[a|e] fs1] ev1]; [done|].
  specialize (Hh e E fs1). unfold events in Hh.
  destruct (handler e E fs1) as [[r fs2] ev2]. cbn in *. by apply Forall_app.
Qed.

Lemma quiet_print line : emits_only read_only (print line).
Proof. by apply quiet_emit. Qed.

Lemma quiet_http_get url : emits_only read_only (http_get url).
Proof. intros E fs. by apply Forall_singleton. Qed.

Lemma quiet_api_list_models : emits_only read_only api_list_models.
Proof. intros E fs. by apply Forall_singleton. Qed.

Lemma quiet_feed_parse url : emits_only read_only (feed_parse url).
Proof. intros E fs. by apply Forall_singleton. Qed.

Lemma quiet_make_datetime t : emits_only read_only (make_datetime t).
Proof. intros E fs. constructor. Qed.

#[export] Hint Resolve quiet_ret quiet_lift quiet_asks quiet_print quiet_http_get
  quiet_api_list_models quiet_feed_parse quiet_make_datetime : frame.

Ltac quiet :=
  repeat first
    [ progress eauto with frame
    | apply quiet_bind; [|intros ?]
    | apply quiet_try_except; [|intros ?]
    | case_match ].

Lemma quiet_news_loop fds news : emits_only read_only (news_loop fds news).
Proof.
  revert news. induction fds as [|[source url] rest IH]; intros news; cbn.
  - apply quiet_ret.
  - apply quiet_bind; [|done]. unfold news_of_feed. quiet.
Qed.

Lemma quiet_fetch_all : emits_only read_only fetch_all.
Proof.
  unfold fetch_all, get_huggingface_daily_papers, get_trending_models, get_lab_news.
  quiet.
Qed.

Lemma quiet_load_history : emits_only read_only load_history.
Proof.
  intros E fs. rewrite load_history_run.
  destruct fs as [[|j]|]; repeat constructor.
Qed.

Lemma select_new_all_seen history candidates :
  Forall (seen history) candidates -> select_new history candidates = Ok [].
Proof.
  induction 1 as [|item rest (k & Hk & Hin) _ IH]; cbn; [done|].
  rewrite Hk, IH. cbn. by rewrite decide_True.
Qed.



(** ** The digest *)

Lemma bullets_are_lines repr ty items :
  ty <> Model -> bullet repr <$> of_type ty items = item_line repr <$> of_type ty items.
Proof.
  intros Hty. apply list_fmap_ext. intros _ i Hi%list_elem_of_lookup_2.
  apply list_elem_of_filter in Hi as [Hi _]. unfold item_line. rewrite Hi.
  by destruct ty.
Qed.

Lemma model_bullets_are_lines repr items :
  Forall displayable items ->
  map_result (model_bullet repr) (of_type Model items) =
    Ok (item_line repr <$> of_type Model items).
Proof.
  intros Hd. unfold of_type.
  induction Hd as [|i rest Hi _ IH]; [done|].
  destruct (decide (item_type i = Model)) as [Hty|Hty].
  - rewrite filter_cons_True by done. cbn. rewrite IH.
    destruct (Hi Hty) as [n Hn]. unfold model_bullet, item_line. by rewrite Hn, Hty.
  - by rewrite filter_cons_False.
Qed.

Lemma build_fields_sections repr items :
  Forall displayable items -> build_fields repr items = Ok (digest_sections repr items).
Proof.
  intros Hd.
  unfold build_fields, digest_sections, section_of, news_section, models_section,
    papers_section.
  fold (of_type Paper items) (of_type Model items) (of_type News items).
  rewrite (model_bullets_are_lines repr items Hd).
  rewrite (bullets_are_lines repr News) by done.
  rewrite (bullets_are_lines repr Paper) by done.
  destruct (of_type News items), (of_type Model items), (of_type Paper items); done.
Qed.

Lemma section_names repr items ty :
  field_name <$> section_of repr items ty =
    if decide (of_type ty items = []) then [] else [section_name ty].
Proof. unfold section_of. by destruct (of_type ty items). Qed.

Lemma of_type_empty_perm ty items items' :
  items ≡ₚ items' -> of_type ty items = [] -> of_type ty items' = [].
Proof.
  intros Hp He. apply Permutation_nil_r. rewrite <- He. unfold of_type.
  by rewrite Hp.
Qed.

Lemma send_discord_digest_run E fs items :
  Forall displayable items ->
  send_discord_digest items E fs =
    match items with
    | [] => (Ok tt, fs, [])
    | _ => (requests_post E (WEBHOOK_URL E) (digest_payload E items), fs,
            [EvPost (WEBHOOK_URL E) (digest_payload E items)])
    end.
Proof.
  intros Hd. destruct items as [|i rest]; [done|].
  unfold send_discord_digest, bind, asks, lift, http_post.
  rewrite (build_fields_sections _ _ Hd). cbn.
  by destruct (requests_post E _ _).
Qed.

(** C4. For every list of items (model items carrying their like count),
    the fields of the digest are the sections of the specification: one
    per type that occurs, News before Models before Papers, each made of
    the lines of exactly the items of its type in their order in the
    input; which sections appear, and in which order, is the same for any
    reordering of the input.  An empty list posts nothing; any other list
    is posted once, as the message with these sections. *)
Theorem digest_partitions_by_type E fs items :
  Forall displayable items ->
  build_fields (py_repr E) items = Ok (digest_sections (py_repr E) items)
  /\ (forall ty,
        of_type ty items `sublist_of` items
        /\ (forall i, i ∈ of_type ty items <-> i ∈ items /\ item_type i = ty)
        /\ field_name <$> section_of (py_repr E) items ty =
             if decide (of_type ty items = []) then [] else [section_name ty])
  /\ (forall items', items ≡ₚ items' ->
        field_name <$> digest_sections (py_repr E) items' =
        field_name <$> digest_sections (py_repr E) items)
  /\ send_discord_digest items E fs =
       match items with
       | [] => (Ok tt, fs, [])
       | _ => (requests_post E (WEBHOOK_URL E) (digest_payload E items), fs,
               [EvPost (WEBHOOK_URL E) (digest_payload E items)])
       end.
Proof.
  intros Hd. split; [by apply build_fields_sections|]. split; [|split].
  - intros ty. split; [apply sublist_filter|]. split; [|apply section_names].
    intros i. unfold of_type. rewrite list_elem_of_filter. tauto.
  - intros items' Hp. unfold digest_sections. rewrite !fmap_app, !section_names.
    assert (Hty : forall ty,
               (if decide (of_type ty items' = []) then [] else [section_name ty]) =
               (if decide (of_type ty items = []) then [] else [section_name ty])).
    { intros ty. do 2 case_decide; try done; exfalso.
      - symmetry in Hp. by eauto using of_type_empty_perm.
      - by eauto using of_type_empty_perm. }
    by rewrite !Hty.
  - by apply send_discord_digest_run.
Qed.

Lemma digest_partitions_by_type_witness :
  Forall displayable [model_item model_day1; mkItem (JStr "B") (JStr "T") "L" Paper None]
  /\ build_fields (py_repr quiet_env)
       [model_item model_day1; mkItem (JStr "B") (JStr "T") "L" Paper None] =
     Ok (digest_sections (py_repr quiet_env)
           [model_item model_day1; mkItem (JStr "B") (JStr "T") "L" Paper None]).
Proof.
  assert (Hd : Forall displayable
                 [model_item model_day1; mkItem (JStr "B") (JStr "T") "L" Paper None]).
  { repeat constructor; intros H; [by eexists|discriminate H]. }
  split; [exact Hd|].
  exact (proj1 (digest_partitions_by_type quiet_env None _ Hd)).
Defined.

(** ** One run, step by step *)

Lemma main_run_nothing E fs history candidates evl evc :
  url_missing (WEBHOOK_URL E) = false ->
  load_history E fs = (Ok history, fs, evl) ->
  fetch_all E fs = (Ok candidates, fs, evc) ->
  select_new history candidates = Ok [] ->
  main E fs = (Ok tt, fs, evl ++ evc ++ [EvPrint "No new items to report."]).
Proof.
  intros Hurl Hload Hfetch Hsel. rewrite main_halves, Hurl.
  unfold bind at 1. rewrite Hload. unfold bind at 1. rewrite Hfetch.
  unfold deliver, bind, lift. rewrite Hsel. done.
Qed.

Lemma main_run_new E fs history candidates new_items ks evl evc evs :
  url_missing (WEBHOOK_URL E) = false ->
  load_history E fs = (Ok history, fs, evl) ->
  fetch_all E fs = (Ok candidates, fs, evc) ->
  select_new history candidates = Ok new_items ->
  new_items <> [] ->
  send_discord_digest new_items E fs = (Ok tt, fs, evs) ->
  map_result (fun item => py_hash (item_id item)) new_items = Ok ks ->
  main E fs =
    let saved :=
      Doc (JArr (json_of_key <$>
                 last_n 1000 (set_order E (history ∪ list_to_set ks)))) in
    (Ok tt, Some saved,
     evl ++ evc ++ [EvPrint (found_line new_items)] ++ evs
     ++ [EvWrite HISTORY_FILE saved]).
Proof.
  intros Hurl Hload Hfetch Hsel Hne Hsend Hks. rewrite main_halves, Hurl.
  unfold bind at 1. rewrite Hload. unfold bind at 1. rewrite Hfetch.
  unfold deliver. unfold bind at 1. unfold lift at 1. rewrite Hsel.
  destruct new_items as [|item rest]; [done|].
  unfold bind at 1. unfold print at 1. unfold emit at 1.
  unfold bind at 1. rewrite Hsend.
  unfold bind at 1. unfold lift at 1. rewrite Hks. cbn [rbind].
  rewrite save_history_run. cbv zeta. unfold found_line.
  by rewrite ?app_nil_l, ?app_nil_r, <- ?app_assoc.
Qed.

Lemma py_hash_json_of_key l :
  map_result py_hash (json_of_key <$> l) = Ok l.
Proof.
  induction l as [|k rest IH]; [done|]. cbn. rewrite IH. by destruct k.
Qed.

(** A saved history loads back as the set of what was saved. *)
Lemma load_saved_history E l :
  load_history E (Some (Doc (JArr (json_of_key <$> l)))) =
    (Ok (list_to_set l), Some (Doc (JArr (json_of_key <$> l))),
     [EvExists HISTORY_FILE; EvRead HISTORY_FILE]).
Proof. rewrite load_history_run. unfold py_set. cbn. by rewrite py_hash_json_of_key. Qed.

(** ** Two runs in a row at the cap *)

Lemma cap_env_fetch fs :
  fetch_all cap_env fs =
    (Ok [item_B], fs,
     [EvGet "https://huggingface.co/api/daily_papers?date=2025-01-15"; EvListModels;
      EvParse "https://openai.com/index.xml"; EvParse "https://www.anthropic.com/feed";
      EvParse "https://deepmind.google/blog/rss.xml";
      EvParse "https://huggingface.co/blog/feed.xml"]).
Proof. reflexivity. Qed.

Lemma cap_env_send fs :
  send_discord_digest [item_B] cap_env fs =
    (Ok tt, fs, [EvPost (Some "https://discord.example/api/webhooks/1") digest_B]).
Proof. reflexivity. Qed.

(** In [cap_env], a run that loads a history of 1000 ids without B posts
    the digest of B and saves that same history again: B is cut off. *)
Lemma cap_env_run fs history evl :
  load_history cap_env fs = (Ok history, fs, evl) ->
  KStr "B" ∉ history ->
  size history = 1000%nat ->
  outcome (main cap_env fs) = Ok tt
  /\ posts (events (main cap_env fs)) = posts evl ++ [digest_B]
  /\ file_after (main cap_env fs) = Some (Doc (JArr (json_of_key <$> elements history))).
Proof.
  intros Hload HB Hsize.
  assert (Hsel : select_new history [item_B] = Ok [item_B]).
  { cbn. by rewrite decide_False. }
  rewrite (main_run_new cap_env fs history [item_B] [item_B] [KStr "B"] _ _ _
             eq_refl Hload (cap_env_fetch fs) Hsel ltac:(done) (cap_env_send fs) eq_refl).
  cbv zeta. unfold outcome, file_after, events. cbn [fst snd].
  split; [done|]. split.
  - unfold posts. rewrite !omap_app. by cbn.
  - do 4 f_equal. cbn [set_order cap_env]. unfold front_order.
    rewrite decide_True
      by (apply elem_of_union_r, elem_of_list_to_set, list_elem_of_here).
    assert ((history ∪ list_to_set [KStr "B"]) ∖ {[KStr "B"]} = history) as ->.
    { apply set_eq. intros k.
      rewrite elem_of_difference, elem_of_union, elem_of_list_to_set,
        list_elem_of_singleton, elem_of_singleton.
      split; [tauto|]. intros Hk. split; [by left|]. by intros ->. }
    unfold last_n. cbn [length].
    change (length (elements history)) with (size history). by rewrite Hsize.
Qed.

Lemma thousand_keys_without_B :
  (KStr "B" ∉ thousand_keys) /\ size thousand_keys = 1000%nat.
Proof.
  unfold thousand_keys. split.
  - rewrite elem_of_list_to_set, list_elem_of_fmap. intros (s & [= <-] & Hs).
    unfold thousand_ids in Hs. apply list_elem_of_fmap in Hs as (n & Hn & _).
    discriminate Hn.
  - rewrite size_list_to_set.
    + unfold thousand_ids. by rewrite !length_fmap, length_seq.
    + apply NoDup_fmap_2; [by intros ?? [=]|].
      unfold thousand_ids. apply NoDup_fmap_2; [|apply NoDup_seq].
      intros n1 n2 Hn. apply (inj pretty). by simplify_eq.
Qed.

(** C2. With a history of 1000 ids and one new paper B, the first run
    posts the digest of B and saves the last 1000 of the 1001 ids; in an
    iteration order of the set that starts with B, B is the one cut off.
    The second run, on that file and with the same adapter outputs, finds B
    new and posts its digest again. *)
Theorem second_run_resends_at_cap :
  outcome (main cap_env full_history) = Ok tt
  /\ posts (events (main cap_env full_history)) = [digest_B]
  /\ history_size (file_after (main cap_env full_history)) = 1000%nat
  /\ outcome (main cap_env (file_after (main cap_env full_history))) = Ok tt
  /\ posts (events (main cap_env (file_after (main cap_env full_history)))) = [digest_B].
Proof.
  destruct thousand_keys_without_B as [HB Hsize].
  pose proof (load_history_strings cap_env thousand_ids) as Hload1.
  fold thousand_keys full_history in Hload1.
  destruct (cap_env_run _ _ _ Hload1 HB Hsize) as (Hok1 & Hposts1 & Hfile1).
  assert (Hload2 := load_saved_history cap_env (elements thousand_keys)).
  rewrite list_to_set_elements_L in Hload2.
  rewrite Hfile1.
  destruct (cap_env_run _ _ _ Hload2 HB Hsize) as (Hok2 & Hposts2 & Hfile2).
  split; [exact Hok1|]. split; [exact Hposts1|]. split.
  { cbn [history_size]. rewrite length_fmap. exact Hsize. }
  split; [exact Hok2|exact Hposts2].
Qed.

(** ** Two runs in a row below the cap *)

Lemma last_n_short {A : Type} (n : nat) (l : list A) :
  (length (last_n n l) < n)%nat -> last_n n l = l.
Proof.
  unfold last_n. rewrite length_drop. intros H.
  by replace (length l - n)%nat with 0%nat by lia.
Qed.

Lemma posts_read_only evs : Forall read_only evs -> posts evs = [].
Proof.
  unfold posts. induction 1 as [|ev rest Hev _ IH]; [done|].
  cbn. rewrite IH. by destruct ev.
Qed.

Lemma select_new_seen_or_new history candidates new_items :
  select_new history candidates = Ok new_items ->
  Forall (fun item => exists k, py_hash (item_id item) = Ok k
                                /\ (k ∈ history \/ item ∈ new_items)) candidates.
Proof.
  revert new_items. induction candidates as [|item rest IH]; intros new_items; cbn.
  - constructor.
  - destruct (py_hash (item_id item)) as [k|e] eqn:Hk; cbn; [|discriminate].
    destruct (select_new history rest) as [new_rest|e]; cbn; [|discriminate].
    intros [= <-]. specialize (IH new_rest eq_refl). constructor.
    + exists k. split; [done|]. case_decide; [by left|right; by left].
    + eapply Forall_impl; [exact IH|]. cbn. intros it (k' & Hk' & [Hin|Hin]).
      * exists k'. by eauto.
      * exists k'. split; [done|]. right. case_decide; [done|by right].
Qed.

Lemma map_result_elem {A B : Type} (f : A -> result B) l ys x :
  map_result f l = Ok ys -> x ∈ l -> exists y, f x = Ok y /\ y ∈ ys.
Proof.
  revert ys. induction l as [|a rest IH]; intros ys; cbn.
  - intros _ Hx. by apply elem_of_nil in Hx.
  - destruct (f a) as [y|e] eqn:Hy; cbn; [|discriminate].
    destruct (map_result f rest) as [ys'|e]; cbn; [|discriminate].
    intros [= <-] [->|Hx]%elem_of_cons.
    + exists y. split; [done|by left].
    + destruct (IH ys' eq_refl Hx) as (y' & Hy' & Hin). exists y'. split; [done|by right].
Qed.

(** X11. When the interpreter iterates a set over exactly its elements and the
    history that a run leaves has fewer than 1000 entries (so that nothing
    was cut off), a second run on that file in the same environment finds
    nothing new: it posts nothing and leaves the file as it is. *)
Lemma second_run_finds_nothing_below_cap E fs :
  (forall s, set_order E s ≡ₚ elements s) ->
  outcome (main E fs) = Ok tt ->
  (history_size (file_after (main E fs)) < 1000)%nat ->
  outcome (main E (file_after (main E fs))) = Ok tt
  /\ posts (events (main E (file_after (main E fs)))) = []
  /\ file_after (main E (file_after (main E fs))) = file_after (main E fs).
Proof.
  intros Horder Hok Hsize.
  destruct (url_missing (WEBHOOK_URL E)) eqn:Hurl.
  { rewrite !main_halves, !Hurl. done. }
  pose proof (load_history_keeps_file E fs) as Hkeep.
  pose proof (quiet_load_history E fs) as Hlq.
  destruct (load_history E fs) as [[rl fsl] evl] eqn:Hload.
  cbn in Hkeep, Hlq. subst fsl.
  destruct (blind_fetch_all E) as (rc & evc & Hfetch).
  pose proof (quiet_fetch_all E fs) as Hfq. rewrite Hfetch in Hfq. cbn in Hfq.
  rewrite main_halves, Hurl in Hok. unfold bind at 1 in Hok. rewrite Hload in Hok.
  destruct rl as [history|e]; [|discriminate Hok].
  unfold bind at 1 in Hok. rewrite Hfetch in Hok.
  destruct rc as [candidates|e]; [|discriminate Hok].
  unfold deliver in Hok. unfold bind at 1 in Hok. unfold lift at 1 in Hok.
  destruct (select_new history candidates) as [new_items|e] eqn:Hsel;
    [|discriminate Hok].
  destruct new_items as [|item rest].
  - (* nothing new in the first run: the second run is the first again *)
    rewrite (main_run_nothing E fs history candidates evl evc Hurl Hload
               (Hfetch fs) Hsel).
    cbn [file_after fst snd].
    rewrite (main_run_nothing E fs history candidates evl evc Hurl Hload
               (Hfetch fs) Hsel).
    split; [done|]. split; [|done]. apply posts_read_only.
    cbn [events snd]. rewrite !Forall_app. repeat split; try done.
    by apply Forall_singleton.
  - destruct (blind_send_discord_digest (item :: rest) E) as (rs & evs & Hsend).
    unfold bind at 1 in Hok. unfold print at 1 in Hok. unfold emit at 1 in Hok.
    unfold bind at 1 in Hok. rewrite Hsend in Hok.
    destruct rs as [[]|e]; [|discriminate Hok].
    destruct (map_result (fun it => py_hash (item_id it)) (item :: rest))
      as [ks|e] eqn:Hks.
    2:{ unfold bind at 1 in Hok. unfold lift at 1 in Hok. cbn in Hok.
        discriminate Hok. }
    clear Hok.
    rewrite (main_run_new E fs history candidates (item :: rest) ks evl evc evs
               Hurl Hload (Hfetch fs) Hsel ltac:(done) (Hsend fs) Hks) in *.
    cbv zeta in *. cbn [file_after fst snd] in *.
    cbn [history_size] in Hsize. rewrite length_fmap in Hsize.
    rewrite (last_n_short _ _ Hsize).
    set (saved := set_order E (history ∪ list_to_set ks)).
    assert (Hset : list_to_set saved = history ∪ list_to_set ks :> gset hkey).
    { unfold saved. rewrite (Horder _). apply list_to_set_elements_L. }
    pose proof (load_saved_history E saved) as Hload2. rewrite Hset in Hload2.
    assert (Hseen : Forall (seen (history ∪ list_to_set ks)) candidates).
    { eapply Forall_impl; [exact (select_new_seen_or_new _ _ _ Hsel)|].
      cbn. intros it (k & Hk & [Hin|Hin]); exists k; (split; [done|]).
      - by apply elem_of_union_l.
      - apply elem_of_union_r, elem_of_list_to_set.
        destruct (map_result_elem _ _ _ _ Hks Hin) as (k' & Hk' & Hin').
        cbn beta in Hk'. rewrite Hk in Hk'. by injection Hk' as ->. }
    rewrite (main_run_nothing E _ _ candidates _ evc Hurl Hload2 (Hfetch _)
               (select_new_all_seen _ _ Hseen)).
    split; [done|]. split; [|done]. apply posts_read_only.
    cbn [events snd]. rewrite !Forall_app. repeat split; try done.
    + by repeat constructor.
    + by apply Forall_singleton.
Qed.

(** ** What the adapters deliver can be rendered *)

Lemma models_loop_displayable now s acc r :
  models_loop now s acc = Ok r -> Forall displayable acc -> Forall displayable r.
Proof.
  revert acc. induction s as [|m rest IH|e]; intros acc; cbn [models_loop].
  - by intros [= ->].
  - rewrite recently_modified_is_recent. cbn [rbind].
    assert (Hacc : Forall displayable acc -> Forall displayable (acc ++ [model_item m])).
    { intros Hacc. apply Forall_app. split; [done|]. apply Forall_singleton.
      intros _. by eexists. }
    destruct (is_recent now m); [|by apply IH].
    destruct (5 <=? length (acc ++ [model_item m]))%nat.
    + intros [= <-]. exact Hacc.
    + intros Hr Hd. by apply (IH _ Hr), Hacc.
  - discriminate.
Qed.

Lemma typed_displayable ty items :
  ty <> Model -> Forall (fun i => item_type i = ty) items -> Forall displayable items.
Proof.
  intros Hty Hitems. eapply Forall_impl; [exact Hitems|].
  intros i Hi Hm. cbn in Hi. rewrite Hi in Hm. by destruct ty.
Qed.

(** Every candidate of a run can be rendered, and so can every sublist of
    the candidates, such as the new items. *)
Lemma candidates_displayable E fs candidates :
  outcome (fetch_all E fs) = Ok candidates -> Forall displayable candidates.
Proof.
  unfold fetch_all.
  destruct (papers_honours_contract E fs) as (papers & evp & Hp & Htp).
  unfold bind at 1. rewrite Hp.
  unfold bind at 1. rewrite get_trending_models_run.
  destruct (models_loop (now_aware E) (list_models E) []) as [models|e] eqn:Hm;
    [|discriminate].
  destruct (news_honours_contract E fs) as (news & evn & Hn & Htn).
  unfold bind at 1. rewrite Hn. unfold outcome, ret. cbn. intros [= <-].
  rewrite !Forall_app. split; [|split].
  - by apply (typed_displayable Paper).
  - apply (models_loop_displayable _ _ _ _ Hm). constructor.
  - by apply (typed_displayable News).
Qed.

(** ** The scenario of the specification *)

(** In [scenario_env], from a history that holds A: the run posts the
    digest of B alone, and the history it saves loads as the set of A and
    B. *)
Example scenario_history_A_papers_A_B :
  outcome (main scenario_env (Some (Doc (JArr [JStr "A"])))) = Ok tt
  /\ posts (events (main scenario_env (Some (Doc (JArr [JStr "A"]))))) = [digest_B]
  /\ outcome (load_history scenario_env
                (file_after (main scenario_env (Some (Doc (JArr [JStr "A"]))))))
     = Ok {[ KStr "A"; KStr "B" ]}.
Proof. split; [|split]; vm_compute; reflexivity. Qed.

(** * Further properties of the code *)

(** ** Recency in hours *)

Lemma days_below_iff delta n : timedelta_days delta < n <-> delta < n * day_us.
Proof.
  unfold timedelta_days. assert (0 < day_us) by (by vm_compute). split.
  - intros Hd. destruct (Z_lt_le_dec delta (n * day_us)) as [|Hle]; [done|].
    rewrite Z.mul_comm in Hle.
    apply (Z.div_le_lower_bound delta day_us n) in Hle; [lia|done].
  - intros Hd. apply Z.div_lt_upper_bound; [done|lia].
Qed.

(** X1. The recency test of the models adapter holds exactly for the
    candidates that carry a last-modified instant less than 48 hours before
    now; instants in the future pass. *)
Theorem recent_means_under_48_hours now m :
  recently_modified now m = Ok true <->
  exists t, lastModified m = Some t /\ now - t < 48 * 3600 * 1000000.
Proof.
  rewrite recently_modified_is_recent. unfold is_recent.
  change (48 * 3600 * 1000000) with (2 * day_us).
  destruct (lastModified m) as [t|].
  - split.
    + intros [= Ht]. exists t. split; [done|]. by apply days_below_iff, Z.ltb_lt.
    + intros (t' & [= <-] & Ht). f_equal. by apply Z.ltb_lt, days_below_iff.
  - split; [discriminate|]. by intros (t & [=] & _).
Qed.

(** ** The papers adapter on a well-formed answer *)

Lemma papers_loop_map repr data papers :
  papers_loop repr data papers =
    rbind (map_result (paper_item repr) data) (fun its => Ok (papers ++ its)).
Proof.
  revert papers. induction data as [|paper rest IH]; intros papers; cbn.
  - by rewrite app_nil_r.
  - destruct (paper_item repr paper) as [it|e]; cbn; [|done].
    rewrite IH. destruct (map_result (paper_item repr) rest); cbn; [|done].
    by rewrite <- app_assoc.
Qed.

Lemma map_result_length {A B : Type} (f : A -> result B) l ys :
  map_result f l = Ok ys -> length ys = length l.
Proof.
  revert ys. induction l as [|x rest IH]; intros ys; cbn.
  - by intros [= <-].
  - destruct (f x); cbn; [|discriminate].
    destruct (map_result f rest) as [ys'|]; cbn; [|discriminate].
    intros [= <-]. cbn. by rewrite (IH ys').
Qed.

(** X2. When the papers API answers 200 with a JSON array, the adapter
    looks at the first five records only, and it is all or nothing: if each
    of them has a [paper] with an [id] and a [title], the result is their
    items, in order, and nothing is printed; if one of them lacks a key or
    is no object, the result is the empty list (the items of the records
    before it are dropped too) and one diagnostic line is printed. *)
Theorem papers_first_five_all_or_nothing E fs records :
  requests_get E (papers_url E) = Ok (mkResponse 200 (Ok (JArr records))) ->
  get_huggingface_daily_papers E fs =
    match map_result (paper_item (py_repr E)) (take 5 records) with
    | Ok items => (Ok items, fs, [EvGet (papers_url E)])
    | Raise e =>
        (Ok [], fs,
         [EvGet (papers_url E); EvPrint ("Error fetching papers: " +:+ exn_str E e)])
    end.
Proof.
  intros Hget.
  unfold get_huggingface_daily_papers, try_except, bind, asks, http_get, lift, print,
    emit, ret. cbn. fold (papers_url E). rewrite Hget. cbn.
  rewrite papers_loop_map.
  by destruct (map_result (paper_item (py_repr E)) (take 5 records)).
Qed.

Lemma papers_first_five_all_or_nothing_witness :
  requests_get scenario_env (papers_url scenario_env) =
    Ok (mkResponse 200
          (Ok (JArr [JObj [("paper", JObj [("id", JStr "A"); ("title", JStr "S")])];
                     JObj [("paper", JObj [("id", JStr "B"); ("title", JStr "T")])]])))
  /\ outcome (get_huggingface_daily_papers scenario_env None) =
       Ok [ mkItem (JStr "A") (JStr "S") "https://huggingface.co/papers/A" Paper None;
            item_B ].
Proof.
  split; [reflexivity|].
  exact (f_equal outcome
           (papers_first_five_all_or_nothing scenario_env None _ eq_refl)).
Defined.

(** ** The news adapter, feed by feed *)

Lemma day_test_decide delta :
  (timedelta_days delta <? 1) = bool_decide (delta < day_us).
Proof.
  destruct (timedelta_days delta <? 1) eqn:Hd; symmetry.
  - apply bool_decide_eq_true. apply Z.ltb_lt, days_below_iff in Hd. lia.
  - apply bool_decide_eq_false. intros Hlt. apply Z.ltb_ge in Hd.
    assert (timedelta_days delta < 1) by (apply days_below_iff; lia). lia.
Qed.

Lemma news_of_feed_items source url news E fs :
  try_except (news_of_feed source url news) (fun _ => ret news) E fs =
    (Ok (news ++ feed_items E source url), fs, [EvParse url]).
Proof.
  unfold try_except, news_of_feed, feed_items, bind, feed_parse, make_datetime, asks,
    lift, ret. cbn.
  destruct (feedparser_parse E url) as [[[|en ens]]|e]; cbn;
    [by rewrite app_nil_r| |by rewrite app_nil_r].
  destruct (entry_published_parsed en) as [[t|]|]; cbn;
    [|by rewrite app_nil_r..].
  destruct (datetime_of E (take 6 t)) as [published|e]; cbn.
  - rewrite day_test_decide.
    destruct (entry_link en) as [l|], (entry_title en) as [ti|]; cbn;
      case_bool_decide; try case_decide; try lia; cbn; by rewrite ?app_nil_r.
  - destruct (entry_link en), (entry_title en); by rewrite app_nil_r.
Qed.

Lemma news_loop_items fds news E fs :
  news_loop fds news E fs =
    (Ok (news ++ concat ((fun su => feed_items E su.1 su.2) <$> fds)), fs,
     EvParse <$> (snd <$> fds)).
Proof.
  revert news. induction fds as [|[source url] rest IH]; intros news; cbn.
  - by rewrite app_nil_r.
  - rewrite (bind_Ok _ _ _ _ _ _ _ (news_of_feed_items source url news E fs)).
    rewrite IH. cbn. by rewrite <- app_assoc.
Qed.

Lemma feed_items_at_most_one E source url : (length (feed_items E source url) <= 1)%nat.
Proof. unfold feed_items. repeat case_match; cbn; lia. Qed.


(** ** How many candidates a run can have *)

Lemma length_chars s : length (chars s) = String.length s.
Proof. induction s as [|c s IH]; cbn; [done|]. by rewrite IH. Qed.

Lemma length_substring_0 n s : (String.length (String.substring 0 n s) <= n)%nat.
Proof.
  revert s. induction n as [|n IH]; intros [|c s]; cbn; try lia.
  specialize (IH s). lia.
Qed.

Lemma sliced_at_most n data top :
  rbind (py_slice_to n data) py_iter = Ok top -> (length top <= n)%nat.
Proof.
  destruct data as [| | |s|l|kvs]; cbn; try discriminate; intros [= <-].
  - rewrite length_fmap, length_chars. apply length_substring_0.
  - rewrite length_take. lia.
Qed.

Lemma papers_at_most_five E fs items :
  outcome (get_huggingface_daily_papers E fs) = Ok items -> (length items <= 5)%nat.
Proof.
  unfold get_huggingface_daily_papers, try_except, bind, asks, http_get, lift, print,
    emit, ret, outcome. cbn.
  destruct (requests_get E _) as [[sc rj]|e]; cbn; [|by intros [= <-]; cbn; lia].
  destruct (sc =? 200); cbn; [|by intros [= <-]; cbn; lia].
  destruct rj as [data|e]; cbn; [|by intros [= <-]; cbn; lia].
  destruct (rbind (py_slice_to 5 data) py_iter) as [top|e] eqn:Htop; cbn;
    [|by intros [= <-]; cbn; lia].
  rewrite papers_loop_map.
  destruct (map_result (paper_item (py_repr E)) top) as [its|e] eqn:Hits; cbn;
    [|by intros [= <-]; cbn; lia].
  intros [= <-]. rewrite (map_result_length _ _ _ Hits).
  by apply (sliced_at_most 5 data).
Qed.

Lemma models_loop_at_most_five now s acc r :
  (length acc < 5)%nat -> models_loop now s acc = Ok r -> (length r <= 5)%nat.
Proof.
  revert acc. induction s as [|m rest IH|e]; intros acc Hacc.
  - cbn. intros [= <-]. lia.
  - rewrite models_loop_cons. destruct (is_recent now m); [|by apply IH].
    destruct (5 <=? length (acc ++ [model_item m]))%nat eqn:Hfull.
    + intros [= <-]. rewrite length_app. cbn. lia.
    + apply IH. by apply Nat.leb_gt.
  - discriminate.
Qed.

(** X4. A run has at most 14 candidates: the papers adapter returns at
    most five items whatever the API answers, the models adapter at most
    five whatever the listing holds, and the news adapter at most four. *)
Theorem at_most_fourteen_candidates E fs candidates :
  outcome (fetch_all E fs) = Ok candidates ->
  (length candidates <= 14)%nat
  /\ (forall items, outcome (get_huggingface_daily_papers E fs) = Ok items ->
        (length items <= 5)%nat)
  /\ (forall items, outcome (get_trending_models E fs) = Ok items ->
        (length items <= 5)%nat)
  /\ (forall items, outcome (get_lab_news E fs) = Ok items -> (length items <= 4)%nat).
Proof.
  assert (Hnews : forall fs0 items, outcome (get_lab_news E fs0) = Ok items ->
                                    (length items <= 4)%nat).
  { intros fs0. unfold get_lab_news. rewrite news_loop_items. intros items [= <-]. cbn.
    rewrite !length_app. cbn.
    pose proof (feed_items_at_most_one E "OpenAI" "https://openai.com/index.xml").
    pose proof (feed_items_at_most_one E "Anthropic" "https://www.anthropic.com/feed").
    pose proof (feed_items_at_most_one E "DeepMind"
                  "https://deepmind.google/blog/rss.xml").
    pose proof (feed_items_at_most_one E "Hugging Face"
                  "https://huggingface.co/blog/feed.xml").
    lia. }
  assert (Hmodels : forall fs0 items, outcome (get_trending_models E fs0) = Ok items ->
                                      (length items <= 5)%nat).
  { intros fs0. rewrite get_trending_models_run. intros items Hm.
    apply (models_loop_at_most_five (now_aware E) (list_models E) []); [cbn; lia|done]. }
  intros Hfetch.
  split; [|split; [apply papers_at_most_five|split; [apply Hmodels|apply Hnews]]].
  unfold fetch_all in Hfetch.
  destruct (papers_honours_contract E fs) as (papers & evp & Hp & _).
  pose proof (papers_at_most_five E fs papers) as Hpl. rewrite Hp in Hpl.
  unfold bind at 1 in Hfetch. rewrite Hp in Hfetch.
  unfold bind at 1 in Hfetch.
  pose proof (Hmodels fs) as Hml.
  destruct (get_trending_models E fs) as [[[models|e] fsm] evm];
    [|discriminate Hfetch].
  destruct (news_honours_contract E fsm) as (news & evn & Hn & _).
  pose proof (Hnews fsm news) as Hnl. rewrite Hn in Hnl.
  unfold bind at 1 in Hfetch. rewrite Hn in Hfetch. cbn in Hfetch.
  injection Hfetch as <-. rewrite !length_app.
  specialize (Hpl eq_refl). specialize (Hml models eq_refl). specialize (Hnl eq_refl).
  lia.
Qed.

Lemma at_most_fourteen_candidates_witness :
  outcome (fetch_all scenario_env None) =
    Ok [ mkItem (JStr "A") (JStr "S") "https://huggingface.co/papers/A" Paper None;
         item_B ]
  /\ (length [ mkItem (JStr "A") (JStr "S") "https://huggingface.co/papers/A" Paper None;
               item_B ] <= 14)%nat.
Proof.
  split; [reflexivity|].
  exact (proj1 (at_most_fourteen_candidates scenario_env None _ eq_refl)).
Defined.

(** ** The filter against the history *)

(** X5. The filter keeps exactly the candidates whose id is not in the
    history, in the order of the candidate list and with repetitions (two
    candidates with the same unseen id are both kept); if the id of any
    candidate is a list or a dict, the whole filter raises a [TypeError]. *)
Theorem select_new_keeps_unseen_in_order history candidates :
  select_new history candidates =
    if forallb (fun i => negb (unhashable (item_id i))) candidates
    then Ok (filter (fun i => is_new history i = true) candidates)
    else Raise TypeError.
Proof.
  induction candidates as [|item rest IH]; [done|].
  cbn [select_new forallb]. rewrite IH.
  destruct (py_hash (item_id item)) as [k|e] eqn:Hk.
  - assert (unhashable (item_id item) = false) as ->
      by (by destruct (item_id item)).
    cbn. destruct (forallb _ rest); cbn; [|done]. f_equal.
    assert (is_new history item = bool_decide (k ∉ history)) as ->
      by (unfold is_new; by rewrite Hk).
    destruct (decide (k ∈ history)) as [Hin|Hin].
    + rewrite decide_False; [done|]. by intros ?%bool_decide_eq_true.
    + rewrite decide_True; [done|]. by apply bool_decide_eq_true.
  - destruct (item_id item); try discriminate Hk; by injection Hk as <-.
Qed.

(** ** The formatter on an item without its like count *)

Lemma model_bullets_key_error repr items :
  Exists (fun i => item_type i = Model /\ item_likes i = None) items ->
  map_result (model_bullet repr) (of_type Model items) = Raise KeyError
  /\ of_type Model items <> [].
Proof.
  unfold of_type. induction items as [|i rest IH]; intros Hex.
  - by apply Exists_nil in Hex.
  - apply Exists_cons in Hex.
    destruct (decide (item_type i = Model)) as [Hty|Hty].
    + rewrite filter_cons_True by done. split; [|done]. cbn.
      unfold model_bullet at 1. destruct (item_likes i) as [n|] eqn:Hl; [|done].
      destruct Hex as [[_ Hn]|Hex]; [congruence|].
      cbn. by rewrite (proj1 (IH Hex)).
    + rewrite filter_cons_False by done.
      destruct Hex as [[Hm _]|Hex]; [done|]. by apply IH.
Qed.

(** X6. When some model item of the list has no [likes] key, the digest
    raises a [KeyError] while the sections are built: nothing is posted. *)
Theorem digest_raises_without_likes E fs items :
  Exists (fun i => item_type i = Model /\ item_likes i = None) items ->
  send_discord_digest items E fs = (Raise KeyError, fs, []).
Proof.
  intros Hex. destruct (model_bullets_key_error (py_repr E) items Hex) as [Hraise Hne].
  destruct items as [|i rest]; [by apply Exists_nil in Hex|].
  unfold send_discord_digest, bind, asks, lift. cbn -[build_fields].
  assert (build_fields (py_repr E) (i :: rest) = Raise KeyError) as ->; [|done].
  unfold build_fields.
  fold (of_type Model (i :: rest)).
  destruct (of_type Model (i :: rest)) as [|m ms]; [done|].
  by rewrite Hraise.
Qed.

Lemma digest_raises_without_likes_witness :
  Exists (fun i => item_type i = Model /\ item_likes i = None)
    [item_B; mkItem (JStr "org/m") (JStr "org/m") "L" Model None]
  /\ send_discord_digest [item_B; mkItem (JStr "org/m") (JStr "org/m") "L" Model None]
       quiet_env None = (Raise KeyError, None, []).
Proof.
  assert (Hex : Exists (fun i => item_type i = Model /\ item_likes i = None)
                  [item_B; mkItem (JStr "org/m") (JStr "org/m") "L" Model None]).
  { apply Exists_cons_tl, Exists_cons_hd. by split. }
  split; [exact Hex|].
  exact (digest_raises_without_likes quiet_env None _ Hex).
Defined.

(** ** Saving, then loading *)

(** X7. When the interpreter iterates a set over exactly its elements,
    the history that [save_history] writes loads back as a subset of the
    union of the old history and the new ids that holds as many of its
    elements as fit under the cap; when the union has at most 1000
    elements, it loads back as the union itself. *)
Theorem save_then_load E fs new_ids old_history :
  (forall s, set_order E s ≡ₚ elements s) ->
  exists saved : gset hkey,
    outcome (load_history E (file_after (save_history new_ids old_history E fs)))
      = Ok saved
    /\ saved ⊆ old_history ∪ new_ids
    /\ size saved = (1000 `min` size (old_history ∪ new_ids))%nat
    /\ ((size (old_history ∪ new_ids) <= 1000)%nat -> saved = old_history ∪ new_ids).
Proof.
  intros Horder. rewrite save_history_run. cbv zeta. cbn [file_after fst snd].
  rewrite load_saved_history. cbn [outcome fst].
  set (s := old_history ∪ new_ids). specialize (Horder s).
  assert (Hlen : length (set_order E s) = size s) by (by rewrite Horder).
  assert (Hnd : NoDup (set_order E s)) by (rewrite Horder; apply NoDup_elements).
  eexists. split; [done|]. split; [|split].
  - intros k Hk%elem_of_list_to_set. unfold last_n in Hk.
    apply subseteq_drop in Hk. rewrite Horder in Hk. by apply elem_of_elements.
  - rewrite size_list_to_set.
    + unfold last_n. rewrite length_drop. lia.
    + unfold last_n. eapply sublist_NoDup; [exact Hnd|apply sublist_drop].
  - intros Hs. unfold last_n.
    replace (length (set_order E s) - 1000)%nat with 0%nat by lia.
    rewrite drop_0, Horder. apply list_to_set_elements_L.
Qed.

Lemma save_then_load_witness :
  (forall s, set_order quiet_env s ≡ₚ elements s)
  /\ exists saved : gset hkey,
       outcome (load_history quiet_env
                  (file_after (save_history {[ KStr "B" ]} {[ KStr "A" ]} quiet_env None)))
         = Ok saved
       /\ saved ⊆ {[ KStr "A" ]} ∪ {[ KStr "B" ]}.
Proof.
  assert (Ho : forall s, set_order quiet_env s ≡ₚ elements s) by (by intros s).
  split; [exact Ho|].
  destruct (save_then_load quiet_env None {[ KStr "B" ]} {[ KStr "A" ]} Ho)
    as (saved & Hload & Hsub & _).
  exists saved. by split.
Defined.

(** ** The shape of a run *)

Lemma select_new_hashable history candidates new_items :
  select_new history candidates = Ok new_items ->
  map_result (fun item => py_hash (item_id item)) new_items = Ok (item_keys new_items).
Proof.
  revert new_items. induction candidates as [|item rest IH]; intros new_items; cbn.
  - by intros [= <-].
  - destruct (py_hash (item_id item)) as [k|e] eqn:Hk; cbn; [|discriminate].
    destruct (select_new history rest) as [new_rest|e]; cbn; [|discriminate].
    specialize (IH new_rest eq_refl). intros [= <-].
    case_decide; [done|]. cbn. by rewrite Hk, IH.
Qed.

Lemma send_discord_digest_cases items E fs :
  (exists e, send_discord_digest items E fs = (Raise e, fs, []))
  \/ (items = [] /\ send_discord_digest items E fs = (Ok tt, fs, []))
  \/ exists p, send_discord_digest items E fs =
               (requests_post E (WEBHOOK_URL E) p, fs, [EvPost (WEBHOOK_URL E) p]).
Proof.
  destruct items as [|i rest]; [by right; left|].
  unfold send_discord_digest, bind, asks, lift, http_post. cbn -[build_fields].
  destruct (build_fields (py_repr E) (i :: rest)) as [fields|e]; cbn;
    [|left; by eexists].
  right. right. eexists. reflexivity.
Qed.

Lemma bind_raises {A B : Type} (m : M A) (f : A -> M B) E fs e fs1 ev1 :
  m E fs = (Raise e, fs1, ev1) -> bind m f E fs = (Raise e, fs1, ev1).
Proof. intros H. unfold bind. by rewrite H. Qed.

Lemma shaped_quiet E fs r evs : Forall read_only evs -> run_shaped E fs (r, fs, evs).
Proof. intros H. exists evs. split; [done|]. by left. Qed.

Lemma shaped_prepend E fs x ev0 :
  Forall read_only ev0 -> run_shaped E fs x -> run_shaped E fs (x.1.1, x.1.2, ev0 ++ x.2).
Proof.
  intros H0 (pre & Hpre & Hx). exists (ev0 ++ pre). split; [by apply Forall_app|].
  unfold events, outcome, file_after in *. cbn [fst snd].
  destruct Hx as [[-> Hf]|[(p & e & -> & Hp & Ho & Hf)|(p & c & -> & Hp & Ho & Hf)]].
  - by left.
  - right. left. exists p, e. by rewrite app_assoc.
  - right. right. exists p, c. by rewrite app_assoc.
Qed.

Lemma deliver_shaped history candidates E fs :
  run_shaped E fs (deliver history candidates E fs).
Proof.
  unfold deliver.
  destruct (select_new history candidates) as [new_items|e] eqn:Hsel.
  2:{ rewrite (bind_raises _ _ E fs e fs []) by done. by apply shaped_quiet. }
  rewrite (bind_Ok _ _ E fs new_items fs []) by done.
  apply shaped_prepend; [constructor|].
  destruct new_items as [|item rest].
  { apply shaped_quiet. by apply Forall_singleton. }
  set (new_items := item :: rest) in *.
  rewrite (bind_Ok _ _ E fs tt fs [EvPrint (found_line new_items)]) by done.
  apply shaped_prepend; [by apply Forall_singleton|].
  destruct (send_discord_digest_cases new_items E fs) as [[e Hs]|[Hs|[p Hs]]].
  - rewrite (bind_raises _ _ E fs e fs [] Hs). apply shaped_quiet. constructor.
  - by destruct Hs.
  - destruct (requests_post E (WEBHOOK_URL E) p) as [[]|e] eqn:Hpost.
    + rewrite (bind_Ok _ _ E fs tt fs _ Hs).
      rewrite (bind_Ok _ _ E fs (list_to_set (item_keys new_items)) fs []).
      2:{ unfold lift. by rewrite (select_new_hashable _ _ _ Hsel). }
      rewrite save_history_run. cbv zeta. cbn [fst snd app].
      exists []. split; [constructor|]. right. right. do 2 eexists.
      unfold events, outcome, file_after. cbn. by repeat split.
    + rewrite (bind_raises _ _ E fs e fs _ Hs).
      exists []. split; [constructor|]. right. left. exists p, e.
      unfold events, outcome, file_after. cbn. by repeat split.
Qed.

(** X8. Every run has one of three shapes.  It looks, fetches and prints
    only: nothing is posted and the history file stays as it was.  Or it
    does so and then posts once, the post raises, the run ends with that
    exception and the history file stays as it was.  Or it posts once, the
    post returns, and the history is written once, as the last thing the
    run does, and the run ends normally.  So a run never posts twice, never
    writes the history without having posted, and never changes the history
    when it ends with an exception. *)
Theorem run_shape E fs :
  exists pre, Forall read_only pre /\
    ((events (main E fs) = pre /\ file_after (main E fs) = fs)
     \/ (exists p e,
           events (main E fs) = pre ++ [EvPost (WEBHOOK_URL E) p]
           /\ requests_post E (WEBHOOK_URL E) p = Raise e
           /\ outcome (main E fs) = Raise e
           /\ file_after (main E fs) = fs)
     \/ (exists p c,
           events (main E fs) = pre ++ [EvPost (WEBHOOK_URL E) p; EvWrite HISTORY_FILE c]
           /\ requests_post E (WEBHOOK_URL E) p = Ok tt
           /\ outcome (main E fs) = Ok tt
           /\ file_after (main E fs) = Some c)).
Proof.
  change (run_shaped E fs (main E fs)).
  rewrite main_halves. destruct (url_missing (WEBHOOK_URL E)).
  { apply shaped_quiet. by apply Forall_singleton. }
  pose proof (load_history_keeps_file E fs) as Hkeep.
  pose proof (quiet_load_history E fs) as Hlq.
  destruct (load_history E fs) as [[rl fsl] evl] eqn:Hload.
  cbn in Hkeep, Hlq. subst fsl.
  destruct rl as [history|e].
  2:{ rewrite (bind_raises _ _ E fs e fs evl Hload). by apply shaped_quiet. }
  rewrite (bind_Ok _ _ E fs history fs evl Hload). apply shaped_prepend; [done|].
  destruct (blind_fetch_all E) as (rc & evc & Hfetch).
  pose proof (quiet_fetch_all E fs) as Hfq. rewrite Hfetch in Hfq. cbn in Hfq.
  destruct rc as [candidates|e].
  2:{ rewrite (bind_raises _ _ E fs e fs evc (Hfetch fs)). by apply shaped_quiet. }
  rewrite (bind_Ok _ _ E fs candidates fs evc (Hfetch fs)).
  apply shaped_prepend; [done|]. apply deliver_shaped.
Qed.

(** ** A history that does not load *)

(** X9. With the webhook configured, when loading the history raises, the
    run ends with that exception having only looked for the file and read
    it: no adapter was called, nothing was posted, the file is as it was. *)
Theorem unloadable_history_stops_run E fs e :
  url_missing (WEBHOOK_URL E) = false ->
  outcome (load_history E fs) = Raise e ->
  main E fs = (Raise e, fs, [EvExists HISTORY_FILE; EvRead HISTORY_FILE]).
Proof.
  intros Hurl Hload. rewrite main_halves, Hurl.
  apply bind_raises. rewrite load_history_run in *.
  destruct fs as [[|j]|]; cbn in Hload; try discriminate Hload.
  - by injection Hload as <-.
  - unfold outcome in Hload. cbn in Hload. by rewrite Hload.
Qed.

Lemma unloadable_history_stops_run_witness :
  url_missing (WEBHOOK_URL scenario_env) = false
  /\ outcome (load_history scenario_env (Some Garbage)) = Raise JSONDecodeError
  /\ main scenario_env (Some Garbage) =
       (Raise JSONDecodeError, Some Garbage,
        [EvExists HISTORY_FILE; EvRead HISTORY_FILE]).
Proof.
  split; [reflexivity|]. split; [reflexivity|].
  exact (unloadable_history_stops_run scenario_env (Some Garbage) JSONDecodeError
           eq_refl eq_refl).
Defined.

(** ** A run that finds new items *)

Lemma select_new_sublist history candidates new_items :
  select_new history candidates = Ok new_items -> new_items `sublist_of` candidates.
Proof.
  revert new_items. induction candidates as [|item rest IH]; intros new_items; cbn.
  - intros [= <-]. constructor.
  - destruct (py_hash (item_id item)); cbn; [|discriminate].
    destruct (select_new history rest) as [new_rest|]; cbn; [|discriminate].
    intros [= <-]. case_decide.
    + apply sublist_cons. by apply IH.
    + apply sublist_skip. by apply IH.
Qed.

(** X10. In a run (webhook configured) whose history loads and whose
    adapters return, when the filter leaves at least one new item and the
    post returns, the run prints the count, posts once the digest of
    exactly the new items, in the order of the candidate list, and then
    writes as history the last 1000 of the old history united with the ids
    of the new items, in the iteration order of that set; it ends
    normally. *)
Theorem run_posts_new_items_then_saves E fs history candidates new_items :
  url_missing (WEBHOOK_URL E) = false ->
  outcome (load_history E fs) = Ok history ->
  outcome (fetch_all E fs) = Ok candidates ->
  select_new history candidates = Ok new_items ->
  new_items <> [] ->
  requests_post E (WEBHOOK_URL E) (digest_payload E new_items) = Ok tt ->
  main E fs =
    (Ok tt,
     Some (Doc (JArr (json_of_key <$>
                      last_n 1000
                        (set_order E (history ∪ list_to_set (item_keys new_items)))))),
     events (load_history E fs) ++ events (fetch_all E fs)
     ++ [ EvPrint (found_line new_items);
          EvPost (WEBHOOK_URL E) (digest_payload E new_items);
          EvWrite HISTORY_FILE
            (Doc (JArr (json_of_key <$>
                        last_n 1000
                          (set_order E
                             (history ∪ list_to_set (item_keys new_items)))))) ]).
Proof.
  intros Hurl Hload Hfetch Hsel Hne Hpost.
  pose proof (load_history_keeps_file E fs) as Hkeep.
  destruct (load_history E fs) as [[rl fsl] evl] eqn:Hl.
  cbn in Hkeep, Hload. subst fsl rl.
  pose proof (candidates_displayable E fs candidates Hfetch) as Hdisp.
  destruct (blind_fetch_all E) as (rc & evc & Hf). rewrite Hf in Hfetch |- *.
  cbn in Hfetch. subst rc.
  assert (Hnew : Forall displayable new_items).
  { rewrite Forall_forall in Hdisp |- *. intros i Hi. apply Hdisp.
    exact (elem_of_sublist _ _ _ Hi (select_new_sublist _ _ _ Hsel)). }
  assert (Hsend : send_discord_digest new_items E fs =
                  (Ok tt, fs, [EvPost (WEBHOOK_URL E) (digest_payload E new_items)])).
  { rewrite (send_discord_digest_run E fs new_items Hnew).
    destruct new_items; [done|]. by rewrite Hpost. }
  rewrite (main_run_new E fs history candidates new_items (item_keys new_items) evl evc
             _ Hurl Hl (Hf fs) Hsel Hne Hsend (select_new_hashable _ _ _ Hsel)).
  done.
Qed.

Lemma run_posts_new_items_then_saves_witness :
  url_missing (WEBHOOK_URL scenario_env) = false
  /\ outcome (load_history scenario_env (Some (Doc (JArr [JStr "A"])))) = Ok {[ KStr "A" ]}
  /\ outcome (fetch_all scenario_env (Some (Doc (JArr [JStr "A"])))) =
       Ok [ mkItem (JStr "A") (JStr "S") "https://huggingface.co/papers/A" Paper None;
            item_B ]
  /\ select_new {[ KStr "A" ]}
       [ mkItem (JStr "A") (JStr "S") "https://huggingface.co/papers/A" Paper None;
         item_B ] = Ok [item_B]
  /\ [item_B] <> []
  /\ requests_post scenario_env (WEBHOOK_URL scenario_env)
       (digest_payload scenario_env [item_B]) = Ok tt
  /\ posts (events (main scenario_env (Some (Doc (JArr [JStr "A"]))))) = [digest_B].
Proof.
  assert (H2 : outcome (load_history scenario_env (Some (Doc (JArr [JStr "A"]))))
               = Ok {[ KStr "A" ]}) by reflexivity.
  assert (H4 : select_new {[ KStr "A" ]}
                 [ mkItem (JStr "A") (JStr "S") "https://huggingface.co/papers/A"
                     Paper None; item_B ] = Ok [item_B]) by reflexivity.
  assert (H5 : [item_B] <> []) by discriminate.
  split; [reflexivity|]. split; [exact H2|]. split; [reflexivity|].
  split; [exact H4|]. split; [exact H5|]. split; [reflexivity|].
  rewrite (run_posts_new_items_then_saves scenario_env (Some (Doc (JArr [JStr "A"])))
             {[ KStr "A" ]} _ [item_B] eq_refl H2 eq_refl H4 H5 eq_refl).
  reflexivity.
Defined.

(** ** Idempotence below the cap: an instance *)

Lemma second_run_finds_nothing_below_cap_witness :
  (forall s, set_order scenario_env s ≡ₚ elements s)
  /\ outcome (main scenario_env (Some (Doc (JArr [JStr "A"])))) = Ok tt
  /\ (history_size (file_after (main scenario_env (Some (Doc (JArr [JStr "A"]))))) < 1000)%nat
  /\ posts (events (main scenario_env
                      (file_after (main scenario_env (Some (Doc (JArr [JStr "A"])))))))
     = [].
Proof.
  assert (H1 : forall s, set_order scenario_env s ≡ₚ elements s) by (by intros s).
  assert (H2 : outcome (main scenario_env (Some (Doc (JArr [JStr "A"])))) = Ok tt)
    by (vm_compute; reflexivity).
  assert (H3 : (history_size
                  (file_after (main scenario_env (Some (Doc (JArr [JStr "A"])))))
                < 1000)%nat)
    by (apply Nat.ltb_lt; vm_compute; reflexivity).
  split; [exact H1|]. split; [exact H2|]. split; [exact H3|].
  exact (proj1 (proj2 (second_run_finds_nothing_below_cap scenario_env _ H1 H2 H3))).
Defined.

(** ** The papers adapter when the request fails *)

(** X12. The papers adapter answers every failure with the empty list, but
    not every failure leaves a trace: when the request raises, or the body
    of a 200 answer is no JSON, one diagnostic line with the text of the
    exception is printed; when the status is not 200 nothing is printed and
    the body is not decoded. *)
Theorem papers_failures E fs :
  (forall e,
     get_huggingface_daily_papers (with_get E (fun _ => Raise e)) fs =
       (Ok [], fs,
        [EvGet (papers_url E); EvPrint ("Error fetching papers: " +:+ exn_str E e)]))
  /\ (forall e,
        get_huggingface_daily_papers
          (with_get E (fun _ => Ok (mkResponse 200 (Raise e)))) fs =
          (Ok [], fs,
           [EvGet (papers_url E); EvPrint ("Error fetching papers: " +:+ exn_str E e)]))
  /\ (forall status body,
        status <> 200 ->
        get_huggingface_daily_papers
          (with_get E (fun _ => Ok (mkResponse status body))) fs =
          (Ok [], fs, [EvGet (papers_url E)])).
Proof.
  split; [|split].
  - intros e. reflexivity.
  - intros e. reflexivity.
  - intros status body Hs.
    unfold get_huggingface_daily_papers, try_except, bind, asks, http_get, lift, ret.
    cbn. apply Z.eqb_neq in Hs. by rewrite Hs.
Qed.

Lemma papers_failures_witness :
  404 <> 200
  /\ get_huggingface_daily_papers
       (with_get quiet_env (fun _ => Ok (mkResponse 404 (Ok (JArr []))))) None =
       (Ok [], None, [EvGet (papers_url quiet_env)]).
Proof.
  assert (H : 404 <> 200) by discriminate.
  split; [exact H|].
  exact (proj2 (proj2 (papers_failures quiet_env None)) 404 (Ok (JArr [])) H).
Defined.

(** ** A model listing that raises *)

(** X13. With the webhook configured and the history loaded, when the
    model listing raises before five matches are found, the run ends with
    that exception right after the listing call: the papers were fetched,
    no feed is parsed, nothing is posted (also not the new papers), and the
    history file is as it was. *)
Theorem models_failure_aborts_run E fs history e :
  url_missing (WEBHOOK_URL E) = false ->
  outcome (load_history E fs) = Ok history ->
  models_loop (now_aware E) (list_models E) [] = Raise e ->
  main E fs =
    (Raise e, fs,
     events (load_history E fs) ++ events (get_huggingface_daily_papers E fs)
     ++ [EvListModels]).
Proof.
  intros Hurl Hload Hm. rewrite main_halves, Hurl.
  pose proof (load_history_keeps_file E fs) as Hkeep.
  destruct (load_history E fs) as [[rl fsl] evl] eqn:Hl.
  cbn in Hkeep, Hload. subst fsl rl.
  rewrite (bind_Ok _ _ E fs history fs evl Hl).
  destruct (papers_honours_contract E fs) as (papers & evp & Hp & _).
  assert (Hf : fetch_all E fs = (Raise e, fs, evp ++ [EvListModels])).
  { unfold fetch_all. rewrite (bind_Ok _ _ E fs papers fs evp Hp).
    rewrite (bind_raises _ _ E fs e fs [EvListModels]); [done|].
    by rewrite get_trending_models_run, Hm. }
  rewrite (bind_raises _ _ E fs e fs _ Hf). by rewrite Hp.
Qed.

Lemma models_failure_aborts_run_witness :
  url_missing (WEBHOOK_URL (with_models scenario_env (SRaise ConnectionError))) = false
  /\ outcome (load_history (with_models scenario_env (SRaise ConnectionError)) None)
     = Ok ∅
  /\ models_loop (now_aware (with_models scenario_env (SRaise ConnectionError)))
       (list_models (with_models scenario_env (SRaise ConnectionError))) []
     = Raise ConnectionError
  /\ outcome (main (with_models scenario_env (SRaise ConnectionError)) None)
     = Raise ConnectionError.
Proof.
  split; [reflexivity|]. split; [reflexivity|]. split; [reflexivity|].
  exact (f_equal outcome
           (models_failure_aborts_run (with_models scenario_env (SRaise ConnectionError))
              None ∅ ConnectionError eq_refl eq_refl eq_refl)).
Defined.
